(** * The reimbursement formula of [calculate_reimbursement.py]

    A shallow embedding of the four functions of [calculate_reimbursement.py]
    ([detect_outlier_case], [calculate_receipt_component],
    [calculate_outlier_reimbursement], [calculate_reimbursement]) and the
    properties the specification states about them.

    Numbers.  [days] is a Python [int], embedded as [Z].  [miles] and
    [receipts] are Python [float]s; they are embedded as exact rationals [Q],
    and a decimal literal of the source ([0.4], [3.610], ...) denotes its
    decimal value.  Every finite binary64 value is a rational and every
    threshold the source compares against ([100], [2000], [2300], ...) is an
    integer, so the comparisons of the source are the comparisons of [Q]; the
    rounding error of binary64 products and sums, its range limit (Python
    raises [OverflowError] when an [int] above it meets a [float]) and the
    non-finite values [inf] and [nan] are not part of this model.
    [round(total, 2)] rounds to the nearest multiple of [1/100], ties to the
    even one.  The properties are stated and proved on this model; module
    [Binary64] runs the same program on IEEE doubles and is compared with it
    on concrete trips.

    Tags.  The source passes outlier tags around as strings and compares them
    with [==] and [!=]; so does the embedding. *)

From Stdlib Require Import ZArith QArith Qround Qminmax Qabs.
From Stdlib Require Import String Ascii Bool List Lia Lqa Floats.
From Stdlib Require Import DecimalString.
From ExtLib Require Import Structures.Monad Structures.MonadExc.
From ExtLib Require Import Data.Monads.EitherMonad.
Import ListNotations.
Import MonadNotation.

Local Open Scope monad_scope.
Local Open Scope type_scope.
Local Open Scope Z_scope.
Local Open Scope Q_scope.

(** ** Python values, coercions and rounding *)

Module Py.

(** Boolean comparisons on floats, as the source writes them. *)
Definition Qleb (x y : Q) : bool := Qle_bool x y.
Definition Qltb (x y : Q) : bool := negb (Qle_bool y x).
Definition Qgtb (x y : Q) : bool := Qltb y x.

(** The objects a caller can pass: an [int], a (finite) [float], a [str],
    or [None], which stands for any object that is neither a number nor a
    string. *)
Inductive value : Type :=
| VInt (z : Z)
| VFloat (q : Q)
| VStr (s : string)
| VNone.

(** The exceptions of the run.  [except (ValueError, TypeError)] catches the
    first two; anything else, such as the [OverflowError] of [int] on an
    infinite float, passes through the handler.  No operation of this model
    raises it: its floats are finite. *)
Inductive exn : Type :=
| ValueError
| TypeError
| OverflowError.

(** The grammars of [int(str)] and [float(str)] belong to the Python runtime,
    not to the repository: they are an interface.  A string either denotes a
    number or the conversion raises [ValueError]. *)
Class StrConv : Type := {
  int_of_str : string -> option Z;
  float_of_str : string -> option Q
}.

Section Coercions.
Context `{StrConv}.

(** [int(x)]: truncation towards zero on a float, parsing on a string. *)
Definition int (v : value) : exn + Z :=
  match v with
  | VInt z => ret z
  | VFloat q => ret (Z.quot (Qnum q) (Zpos (Qden q)))
  | VStr s =>
      match int_of_str s with
      | Some z => ret z
      | None => raise ValueError
      end
  | VNone => raise TypeError
  end.

(** [float(x)]. *)
Definition float (v : value) : exn + Q :=
  match v with
  | VInt z => ret (inject_Z z)
  | VFloat q => ret q
  | VStr s =>
      match float_of_str s with
      | Some q => ret q
      | None => raise ValueError
      end
  | VNone => raise TypeError
  end.
End Coercions.

(** Nearest integer, ties to even. *)
Definition round_half_even (x : Q) : Z :=
  let f := Qfloor x in
  match Qcompare (x - inject_Z f) (1 # 2) with
  | Lt => f
  | Gt => (f + 1)%Z
  | Eq => if Z.even f then f else (f + 1)%Z
  end.

(** [round(x, ndigits)] for [ndigits >= 0]: the result has denominator
    [10 ^ ndigits]. *)
Definition round (x : Q) (ndigits : Z) : Q :=
  let scale := Z.to_pos (10 ^ ndigits) in
  Qmake (round_half_even (x * inject_Z (Zpos scale))) scale.

(** A sample instance of the string interface: plain decimal literals, an
    optional sign, digits, and for floats an optional fraction. *)
Definition digit_of (c : ascii) : option Z :=
  let n := Z.of_nat (nat_of_ascii c) in
  if ((48 <=? n) && (n <=? 57))%Z then Some (n - 48)%Z else None.

Fixpoint digits_from (acc : Z) (s : string) : option Z :=
  match s with
  | EmptyString => Some acc
  | String c s' =>
      match digit_of c with
      | Some d => digits_from (10 * acc + d)%Z s'
      | None => None
      end
  end.

Definition unsigned_of (s : string) : option Z :=
  match s with
  | EmptyString => None
  | _ => digits_from 0%Z s
  end.

Definition signed (A : Type) (neg : A -> A) (body : string -> option A)
    (s : string) : option A :=
  match s with
  | String "-"%char s' => option_map neg (body s')
  | String "+"%char s' => body s'
  | _ => body s
  end.

Fixpoint split_dot (s : string) : string * option string :=
  match s with
  | EmptyString => (EmptyString, None)
  | String "."%char s' => (EmptyString, Some s')
  | String c s' => let (a, b) := split_dot s' in (String c a, b)
  end.

Definition unsigned_decimal_of (s : string) : option Q :=
  match split_dot s with
  | (a, None) => option_map inject_Z (unsigned_of a)
  | (a, Some b) =>
      match unsigned_of a, unsigned_of b with
      | Some i, Some f =>
          let scale := Z.to_pos (10 ^ Z.of_nat (String.length b)) in
          Some (Qmake (i * Zpos scale + f) scale)
      | _, _ => None
      end
  end.

Definition decimal_literals : StrConv := {|
  int_of_str := signed Z Z.opp unsigned_of;
  float_of_str := signed Q Qopp unsigned_decimal_of
|}.

End Py.

Notation "x <=? y" := (Py.Qleb x y) : Q_scope.
Notation "x <? y" := (Py.Qltb x y) : Q_scope.
Notation "x >? y" := (Py.Qgtb x y) : Q_scope.

(** ** The program *)

(** [detect_outlier_case(days, miles, receipts)].  The two per-day ratios are
    computed by the source and never read. *)
Definition detect_outlier_case (days : Z) (miles receipts : Q) : string :=
  let receipts_per_day :=
    if (days >? 0)%Z then receipts / inject_Z days else 0 in
  let miles_per_day :=
    if (days >? 0)%Z then miles / inject_Z days else 0 in
  if (receipts >? 2000) && (days <=? 4)%Z && (miles <=? 100) then
    "gaming_detection"%string
  else if (receipts >? 2300) && (days <=? 5)%Z && (miles <=? 100) then
    "heavy_cap"%string
  else if (days =? 1)%Z && (miles >? 1000) && (receipts >? 1800) then
    "abuse_detection"%string
  else
    "normal"%string.

(** [calculate_receipt_component(total_receipts_amount)]. *)
Definition calculate_receipt_component (total_receipts_amount : Q) : Q :=
  if total_receipts_amount >? 1000 then
    let base := 1000 * 0.998 in
    let excess := (total_receipts_amount - 1000) * 0.3 in
    base + excess
  else if total_receipts_amount >? 500 then
    let base := 500 * 1.610 in
    let excess := (total_receipts_amount - 500) * 0.998 in
    base + excess
  else if total_receipts_amount >? 200 then
    let base := 200 * 2.258 in
    let excess := (total_receipts_amount - 200) * 1.610 in
    base + excess
  else if total_receipts_amount >? 50 then
    let base := 50 * 3.610 in
    let excess := (total_receipts_amount - 50) * 2.258 in
    base + excess
  else
    total_receipts_amount * 3.610.

(** [calculate_outlier_reimbursement(days, miles, receipts, outlier_type)].
    [days * 45] is an integer product, converted when it meets a float. *)
Definition calculate_outlier_reimbursement
    (days : Z) (miles receipts : Q) (outlier_type : string) : Q :=
  if (outlier_type =? "heavy_cap")%string then
    let base_reimbursement := inject_Z (days * 45) + miles * 0.4 in
    let receipt_component := receipts * 0.15 in
    base_reimbursement + receipt_component
  else if (outlier_type =? "abuse_detection")%string then
    let base_reimbursement := inject_Z (days * 40) + miles * 0.35 in
    let receipt_component := receipts * 0.12 in
    base_reimbursement + receipt_component
  else if (outlier_type =? "spending_cap")%string then
    let base_reimbursement := inject_Z (days * 50) + miles * 0.45 in
    let capped_receipts := Qmin receipts (inject_Z (days * 250)) in
    let receipt_component := capped_receipts * 0.2 in
    base_reimbursement + receipt_component
  else if (outlier_type =? "gaming_detection")%string then
    let base_reimbursement := inject_Z (days * 35) + miles * 0.3 in
    let receipt_component := receipts * 0.08 in
    base_reimbursement + receipt_component
  else
    inject_Z (days * 50) + miles * 0.5 + receipts * 0.1.

(** The value of [total] at line 166 of the source, for coerced inputs that
    passed validation. *)
Definition reimbursement_total (days : Z) (miles receipts : Q) : Q :=
  let outlier_type := detect_outlier_case days miles receipts in
  if negb (outlier_type =? "normal")%string then
    calculate_outlier_reimbursement days miles receipts outlier_type
  else if receipts >? 800 then
    let base_amount := 100%Z in
    let duration_component := (days * 20)%Z in
    let mileage_component := miles * 0.3 in
    let receipt_component := calculate_receipt_component receipts in
    inject_Z (base_amount + duration_component) + mileage_component
      + receipt_component
  else if receipts >? 200 then
    let base_amount := 50%Z in
    let duration_component := (days * 35)%Z in
    let mileage_component := miles * 0.4 in
    let receipt_component := receipts * 0.8 in
    inject_Z (base_amount + duration_component) + mileage_component
      + receipt_component
  else
    let duration_component := (days * 50)%Z in
    let mileage_component := miles * 0.5 in
    let receipt_component := receipts * 0.1 in
    inject_Z duration_component + mileage_component + receipt_component.

Section TopLevel.
Context `{Py.StrConv}.

(** The [try] block of [calculate_reimbursement]. *)
Definition calculate_reimbursement_try
    (trip_duration_days miles_traveled total_receipts_amount : Py.value)
    : Py.exn + Q :=
  days <- Py.int trip_duration_days ;;
  miles <- Py.float miles_traveled ;;
  receipts <- Py.float total_receipts_amount ;;
  if (days <=? 0)%Z || (miles <? 0) || (receipts <? 0) then
    raise Py.ValueError
  else
    ret (Py.round (reimbursement_total days miles receipts) 2).

(** [calculate_reimbursement]: the [try] block under its handler,
    [except (ValueError, TypeError)], which returns [0.0]. *)
Definition calculate_reimbursement
    (trip_duration_days miles_traveled total_receipts_amount : Py.value)
    : Py.exn + Q :=
  catch
    (calculate_reimbursement_try
       trip_duration_days miles_traveled total_receipts_amount)
    (fun e =>
       match e with
       | Py.ValueError | Py.TypeError => ret 0.0
       | _ => raise e
       end).
End TopLevel.

(** ** Notions the properties are stated with *)

(** The three patterns of the classifier, as propositions. *)
Definition gaming_rule (days : Z) (miles receipts : Q) : Prop :=
  2000 < receipts /\ (days <= 4)%Z /\ miles <= 100.

Definition heavy_rule (days : Z) (miles receipts : Q) : Prop :=
  2300 < receipts /\ (days <= 5)%Z /\ miles <= 100.

Definition abuse_rule (days : Z) (miles receipts : Q) : Prop :=
  days = 1%Z /\ 1000 < miles /\ 1800 < receipts.

(** The branch of [calculate_outlier_reimbursement] that a tag selects: the
    [if]/[elif] chain of the source, read as a decision. *)
Inductive outlier_branch : Type :=
| HeavyCapBranch
| AbuseDetectionBranch
| SpendingCapBranch
| GamingDetectionBranch
| FallbackBranch.

Definition outlier_branch_of (outlier_type : string) : outlier_branch :=
  if (outlier_type =? "heavy_cap")%string then HeavyCapBranch
  else if (outlier_type =? "abuse_detection")%string then AbuseDetectionBranch
  else if (outlier_type =? "spending_cap")%string then SpendingCapBranch
  else if (outlier_type =? "gaming_detection")%string then GamingDetectionBranch
  else FallbackBranch.

(** An input is invalid when a coercion fails or a coerced value is out of
    range. *)
Definition invalid_input `{Py.StrConv} (a b c : Py.value) : Prop :=
  (exists e, Py.int a = inl e)
  \/ (exists e, Py.float b = inl e)
  \/ (exists e, Py.float c = inl e)
  \/ (exists days miles receipts,
        Py.int a = inr days /\ Py.float b = inr miles
        /\ Py.float c = inr receipts
        /\ ((days <= 0)%Z \/ miles < 0 \/ receipts < 0)).

(** [f] tends to [limit] as its argument decreases to [b]. *)
Definition approaches_from_above (f : Q -> Q) (b limit : Q) : Prop :=
  forall eps, 0 < eps ->
  exists delta, 0 < delta
    /\ forall r, b < r -> r < b + delta -> Qabs (f r - limit) < eps.

(** [f] is continuous at [b] from the band above: approached from above, it
    tends to its value at [b]. *)
Definition continuous_from_above (f : Q -> Q) (b : Q) : Prop :=
  approaches_from_above f b (f b).

(** Just above [b], [f] stays a fixed gap below its value at [b]. *)
Definition jumps_down (f : Q -> Q) (b : Q) : Prop :=
  exists delta gap, 0 < delta /\ 0 < gap
    /\ forall r, b < r -> r < b + delta -> f r + gap <= f b.

(** The boundaries between the bands of [calculate_receipt_component]. *)
Definition band_boundaries : list Q := [50; 200; 500; 1000].

(** The trips the specification works out by hand, and those used as
    examples below: (days, miles, receipts). *)
Definition scenarios : list (Z * Q * Q) :=
  [(1%Z, 0, 0); (4%Z, 69, 2321); (1%Z, 1082, 1809); (2%Z, 300, 900);
   (3%Z, 50, 2350); (5%Z, 50, 2350); (3%Z, 120, 450.25);
   (5%Z, 37.5, 2400); (6%Z, 0, 1000); (6%Z, 0, 1001)].

(** ** The same program on IEEE doubles

    The functions above once more, on binary64 numbers with their rounding,
    for coerced and validated inputs (the per-day ratios that the classifier
    never reads are left out): a check of the rational model at concrete
    trips.  [round] is Python's: the exact value of the double is rounded to
    [ndigits] decimals, ties to even, and the decimal is read back as the
    nearest double.  That double is the correctly rounded quotient of two
    integers as long as the scaled integer is below [2 ^ 53]; above, doubles
    are more than a cent apart and the argument is its own rounding. *)

Set Warnings "-inexact-float".

Module Binary64.

Local Open Scope float_scope.

(** An [int] meeting a [float]; beyond the range of doubles Python raises
    [OverflowError], which is not modelled. *)
Definition of_int (z : Z) : float :=
  SF2Prim (binary_normalize prec emax z 0 false).

(** [round(x, ndigits)] for [ndigits >= 0]; zeros, infinities and [nan]
    round to themselves. *)
Definition round (x : float) (ndigits : Z) : float :=
  match Prim2SF x with
  | S754_finite negative m e =>
      let scale := (10 ^ ndigits)%Z in
      let magnitude := (inject_Z (Zpos m) * Qpower 2 e)%Q in
      let n := Py.round_half_even (magnitude * inject_Z scale)%Q in
      if (n <? 2 ^ 53)%Z then
        let r := of_int n / of_int scale in
        if negative then - r else r
      else x
  | S754_zero _ | S754_infinity _ | S754_nan => x
  end.

Definition gtb (x y : float) : bool := y <? x.

Definition detect_outlier_case (days : Z) (miles receipts : float) : string :=
  if gtb receipts 2000 && (days <=? 4)%Z && (miles <=? 100) then
    "gaming_detection"%string
  else if gtb receipts 2300 && (days <=? 5)%Z && (miles <=? 100) then
    "heavy_cap"%string
  else if (days =? 1)%Z && gtb miles 1000 && gtb receipts 1800 then
    "abuse_detection"%string
  else
    "normal"%string.

Definition calculate_receipt_component (total_receipts_amount : float)
    : float :=
  if gtb total_receipts_amount 1000 then
    1000 * 0.998 + (total_receipts_amount - 1000) * 0.3
  else if gtb total_receipts_amount 500 then
    500 * 1.610 + (total_receipts_amount - 500) * 0.998
  else if gtb total_receipts_amount 200 then
    200 * 2.258 + (total_receipts_amount - 200) * 1.610
  else if gtb total_receipts_amount 50 then
    50 * 3.610 + (total_receipts_amount - 50) * 2.258
  else
    total_receipts_amount * 3.610.

Definition fmin (x y : float) : float := if y <? x then y else x.

Definition calculate_outlier_reimbursement
    (days : Z) (miles receipts : float) (outlier_type : string) : float :=
  if (outlier_type =? "heavy_cap")%string then
    of_int (days * 45) + miles * 0.4 + receipts * 0.15
  else if (outlier_type =? "abuse_detection")%string then
    of_int (days * 40) + miles * 0.35 + receipts * 0.12
  else if (outlier_type =? "spending_cap")%string then
    of_int (days * 50) + miles * 0.45
      + fmin receipts (of_int (days * 250)) * 0.2
  else if (outlier_type =? "gaming_detection")%string then
    of_int (days * 35) + miles * 0.3 + receipts * 0.08
  else
    of_int (days * 50) + miles * 0.5 + receipts * 0.1.

Definition reimbursement_total (days : Z) (miles receipts : float) : float :=
  let outlier_type := detect_outlier_case days miles receipts in
  if negb (outlier_type =? "normal")%string then
    calculate_outlier_reimbursement days miles receipts outlier_type
  else if gtb receipts 800 then
    of_int (100 + days * 20) + miles * 0.3
      + calculate_receipt_component receipts
  else if gtb receipts 200 then
    of_int (50 + days * 35) + miles * 0.4 + receipts * 0.8
  else
    of_int (days * 50) + miles * 0.5 + receipts * 0.1.

(** What [calculate_reimbursement] returns on validated inputs. *)
Definition reimbursement (days : Z) (miles receipts : float) : float :=
  round (reimbursement_total days miles receipts) 2.

(** The double nearest to a short decimal: the correctly rounded quotient
    of its numerator and denominator, both below [2 ^ 53]. *)
Definition of_decimal (q : Q) : float :=
  of_int (Qnum q) / of_int (Zpos (Qden q)).

End Binary64.

(** ** Standard output, the command line and the evaluation scripts

    A string is its sequence of characters, one [ascii] per character.
    Standard output is the list of the lines printed, in order; [print]
    ends each with a newline. *)

Module Cli.

Local Open Scope string_scope.

(** What the runtime adds to the string grammars: how [print] writes a
    float ([repr]) and the text of the exception that [int] or [float]
    raises on a value. *)
Class Runtime : Type := {
  runtime_conv :: Py.StrConv;
  float_repr : Q -> string;
  int_error : Py.value -> string;
  float_error : Py.value -> string
}.

Section Program.
Context `{Runtime}.

(** [int(x)] and [float(x)], the exception with its text. *)
Definition int_or_text (v : Py.value) : Py.exn * string + Z :=
  match Py.int v with
  | inr z => inr z
  | inl e => inl (e, int_error v)
  end.

Definition float_or_text (v : Py.value) : Py.exn * string + Q :=
  match Py.float v with
  | inr q => inr q
  | inl e => inl (e, float_error v)
  end.

(** The [try] block of [calculate_reimbursement], exceptions with their
    text. *)
Definition calculate_reimbursement_try
    (trip_duration_days miles_traveled total_receipts_amount : Py.value)
    : Py.exn * string + Q :=
  days <- int_or_text trip_duration_days ;;
  miles <- float_or_text miles_traveled ;;
  receipts <- float_or_text total_receipts_amount ;;
  if (days <=? 0)%Z || (miles <? 0)%Q || (receipts <? 0)%Q then
    raise (Py.ValueError, "Invalid input values")
  else
    ret (Py.round (reimbursement_total days miles receipts) 2).

(** The line of [print(f"Error: {e}")]. *)
Definition error_line (text : string) : string := "Error: " ++ text.

(** [calculate_reimbursement] with what it prints: the handler prints the
    error line of the exception, then returns [0.0]. *)
Definition calculate_reimbursement
    (trip_duration_days miles_traveled total_receipts_amount : Py.value)
    : list string * (Py.exn * string + Q) :=
  match calculate_reimbursement_try
          trip_duration_days miles_traveled total_receipts_amount with
  | inr amount => ([], inr amount)
  | inl (Py.ValueError, text) | inl (Py.TypeError, text) =>
      ([error_line text], inr 0.0%Q)
  | inl (e, text) => ([], inl (e, text))
  end.

Definition usage : string :=
  "Usage: python calculate_reimbursement.py <trip_duration_days> <miles_traveled> <total_receipts_amount>".

(** The [__main__] block: standard output and the exit status.  The three
    subscripts of [sys.argv] are in range after the test on its length. *)
Definition main (argv : list string) : list string * Z :=
  if negb (length argv =? 4)%nat then
    ([usage], 1%Z)
  else
    let days := nth 1 argv "" in
    let miles := nth 2 argv "" in
    let receipts := nth 3 argv "" in
    match calculate_reimbursement
            (Py.VStr days) (Py.VStr miles) (Py.VStr receipts) with
    | (out, inr result) => ((out ++ [float_repr result])%list, 0%Z)
    | (out, inl (e, text)) => ((out ++ [error_line text])%list, 1%Z)
    end.

End Program.

(** The text of a standard output. *)
Fixpoint text_of (lines : list string) : string :=
  match lines with
  | [] => ""
  | line :: rest => line ++ String "010" (text_of rest)
  end.

(** [str.strip()]: the whitespace characters below 256. *)
Definition is_space (c : ascii) : bool :=
  let n := nat_of_ascii c in
  ((9 <=? n) && (n <=? 13) || (28 <=? n) && (n <=? 32)
   || (n =? 133) || (n =? 160))%nat.

Fixpoint lstrip (s : string) : string :=
  match s with
  | String c s' => if is_space c then lstrip s' else s
  | EmptyString => EmptyString
  end.

Fixpoint rstrip (s : string) : string :=
  match s with
  | String c s' =>
      match rstrip s' with
      | EmptyString => if is_space c then EmptyString else String c EmptyString
      | t => String c t
      end
  | EmptyString => EmptyString
  end.

Definition strip (s : string) : string := rstrip (lstrip s).

(** A sample runtime: the decimal literals of [Py.decimal_literals], and
    amounts written as Python writes a double with at most two decimals
    ([50.0], [1434.2], [346.38]). *)
Definition digits_of (n : Z) : string :=
  DecimalString.NilZero.string_of_uint (N.to_uint (Z.to_N n)).

Definition cents_repr (q : Q) : string :=
  let cents := Py.round_half_even (q * 100)%Q in
  let sign := if (cents <? 0)%Z then "-" else "" in
  let whole := digits_of (Z.abs cents / 100) in
  let tens := digits_of (Z.abs cents mod 100 / 10) in
  let units := digits_of (Z.abs cents mod 10) in
  sign ++ whole ++ "." ++ tens ++ (if (Z.abs cents mod 10 =? 0)%Z then "" else units).

Definition sample_runtime : Runtime := {|
  runtime_conv := Py.decimal_literals;
  float_repr := cents_repr;
  int_error := fun _ => "invalid literal for int()";
  float_error := fun _ => "could not convert string to float"
|}.

End Cli.

(** ** Doubles of [numpy] and [pandas]

    Where the scripts divide or average, [numpy] raises nothing: a division
    by zero gives an infinity or [nan], the mean of no number is [nan], and
    a comparison with [nan] is false.  These values are kept here. *)

Module Np.

Inductive float64 : Type :=
| Finite (q : Q)
| PosInf
| NegInf
| NaN.


Definition ltb (x y : float64) : bool :=
  match x, y with
  | Finite a, Finite b => (a <? b)%Q
  | Finite _, PosInf | NegInf, Finite _ | NegInf, PosInf => true
  | _, _ => false
  end.

Definition leb (x y : float64) : bool :=
  match x, y with
  | Finite a, Finite b => (a <=? b)%Q
  | Finite _, PosInf | NegInf, Finite _ | NegInf, PosInf => true
  | PosInf, PosInf | NegInf, NegInf => true
  | _, _ => false
  end.

Definition gtb (x y : float64) : bool := ltb y x.

(** [np.mean] of a list. *)
Definition mean (values : list Q) : float64 :=
  match values with
  | [] => NaN
  | _ =>
      Finite (fold_left Qplus values 0 / inject_Z (Z.of_nat (length values)))%Q
  end.

End Np.

(** ** [quick_eval.py]

    [quick_eval] runs the command line on each of the first 100 cases in a
    subprocess and reads the amount back from its standard output.  The
    5-second timeout of [subprocess.run] is not modelled. *)

Module QuickEval.

Local Open Scope string_scope.

(** A case of [public_cases.json]: its three inputs as [str] renders them,
    and the expected output. *)
Record case : Type := {
  trip_duration_days : string;
  miles_traveled : string;
  total_receipts_amount : string;
  expected_output : Q
}.

(** What one turn of the loop does: it appends an error to [errors], or
    prints [Error in case] (non-zero exit status), or prints
    [Exception in case] (an exception was caught). *)
Inductive outcome : Type :=
| Appended (error : Q)
| ErrorInCase
| ExceptionInCase (e : Py.exn).

(** What the function prints at the end. *)
Inductive report : Type :=
| Summary (count : nat) (avg_error max_error score projected : Q)
| NoSuccessfulCases.

(** [statistics.mean], [max] and [sum] on a list of errors. *)
Definition sum (errors : list Q) : Q := fold_left Qplus errors 0%Q.

Definition mean (errors : list Q) : Q :=
  (sum errors / inject_Z (Z.of_nat (length errors)))%Q.

Definition maximum (first : Q) (rest : list Q) : Q :=
  fold_left (fun best e => if (e >? best)%Q then e else best) rest first.

Section Script.
Context `{Cli.Runtime}.
#[local] Existing Instance Cli.runtime_conv.

Definition run_case (c : case) : outcome :=
  let (stdout, returncode) :=
    Cli.main ["calculate_reimbursement.py"; trip_duration_days c;
              miles_traveled c; total_receipts_amount c] in
  if (returncode =? 0)%Z then
    match Py.float (Py.VStr (Cli.strip (Cli.text_of stdout))) with
    | inr predicted => Appended (Qabs (predicted - expected_output c))
    | inl e => ExceptionInCase e
    end
  else
    ErrorInCase.

(** The list [errors] after the loop. *)
Fixpoint errors_of (sample_cases : list case) : list Q :=
  match sample_cases with
  | [] => []
  | c :: rest =>
      match run_case c with
      | Appended error => error :: errors_of rest
      | ErrorInCase | ExceptionInCase _ => errors_of rest
      end
  end.

Definition quick_eval (cases : list case) : report :=
  let sample_cases := firstn 100 cases in
  let errors := errors_of sample_cases in
  match errors with
  | [] => NoSuccessfulCases
  | first :: rest =>
      let avg_error := mean errors in
      let max_error := maximum first rest in
      let score := sum errors in
      Summary (length errors) avg_error max_error score (score * 10)%Q
  end.

End Script.

End QuickEval.

(** ** [validate_ml_claims.py]: the loop of
    [compare_with_our_implementation]

    A row of the data frame holds doubles; the loop converts them with
    [int] and [float] and calls [calculate_reimbursement]. *)

Module ValidateMl.

Record row : Type := {
  trip_duration_days : Q;
  miles_traveled : Q;
  total_receipts_amount : Q;
  reimbursement : Q
}.




Section Script.
Context `{Py.StrConv}.



End Script.

End ValidateMl.

(** ** [investigation/fresh_reverse_engineering.py]: [test_simple_formulas] *)

Module FreshReverseEngineering.

Local Open Scope string_scope.

Record row : Type := {
  days : Q;
  miles : Q;
  receipts : Q;
  reimbursement : Q
}.

Definition formula : Type := Q -> Q -> Q -> Q.


(** The list [errors] of one formula over the frame. *)
Definition errors_of (f : formula) (df : list row) : list Q :=
  map (fun row =>
         Qabs (f (days row) (miles row) (receipts row) - reimbursement row))
      df.





End FreshReverseEngineering.

(** ** [scripts/validate_setup.py]

    The text of a file is a [string]: its characters are the code points
    below 256.  What the script asks of the file system and of the [re]
    module is a parameter of the model. *)

Module ValidateSetup.

Local Open Scope string_scope.

(** The three coloured marks that open a message: the green check of
    [add_pass], the yellow sign of [add_warning], the red cross of
    [add_error]. *)
Inductive mark : Type :=
| Green_check
| Yellow_warning
| Red_cross.

Record ValidationResult : Type := {
  passed : Z;
  warnings : Z;
  errors : Z;
  messages : list (mark * string)
}.

(** [ValidationResult()]. *)
Definition new : ValidationResult :=
  {| passed := 0; warnings := 0; errors := 0; messages := [] |}.

Definition add_pass (message : string) (self : ValidationResult)
    : ValidationResult :=
  {| passed := passed self + 1;
     warnings := warnings self;
     errors := errors self;
     messages := messages self ++ [(Green_check, message)] |}.

Definition add_warning (message : string) (self : ValidationResult)
    : ValidationResult :=
  {| passed := passed self;
     warnings := warnings self + 1;
     errors := errors self;
     messages := messages self ++ [(Yellow_warning, message)] |}.

Definition add_error (message : string) (self : ValidationResult)
    : ValidationResult :=
  {| passed := passed self;
     warnings := warnings self;
     errors := errors self + 1;
     messages := messages self ++ [(Red_cross, message)] |}.

(** The three counters count the messages. *)
Definition counted (r : ValidationResult) : Prop :=
  (passed r + warnings r + errors r = Z.of_nat (length (messages r)))%Z.

(** [content.startswith(prefix)], [needle in content] and [content[:n]]. *)
Definition startswith (prefix content : string) : bool :=
  String.prefix prefix content.

Fixpoint contains (needle content : string) : bool :=
  String.prefix needle content
  || match content with
     | EmptyString => false
     | String _ rest => contains needle rest
     end.

Definition slice_to (n : nat) (content : string) : string :=
  String.substring 0 n content.

Definition required_files : list (string * string) :=
  [("010-cursor_general_rules.mdc", "Central coordination hub");
   ("011-cursor_project_rules.mdc", "Technology stack templates");
   ("012-learned_memories.mdc", "Project knowledge storage");
   ("013-cursor_riper_rules.mdc", "RIPER methodology framework");
   ("020-task_list.mdc", "Active task management");
   ("021-cursor_environment_rules.mdc", "Environment detection");
   ("022-cursor_git_rules.mdc", "Git workflow integration");
   ("030-cursor_task_rules.mdc", "Task workflow rules");
   ("031-cursor_memory_rules.mdc", "Memory management framework");
   ("032-cursor_quality_rules.mdc", "Quality assurance gates");
   ("040-cursor_organization_rules.mdc", "File organization standards");
   ("090-completed_tasks.mdc", "Task completion archive");
   ("091-learned_memories_archive.mdc", "Historical knowledge archive")].

Definition placeholders : list string :=
  ["[PROJECT_NAME]";
   "[PROJECT_COMMAND_QUALITY]";
   "[MAIN_LANGUAGE]";
   "[TECH_STACK]";
   "[FRAMEWORK]";
   "[MIN_VERSION]";
   "[PACKAGE_MANAGER]"].

Definition cross_references : list (string * string) :=
  [("@010-cursor_general_rules", "010-cursor_general_rules.mdc");
   ("@011-cursor_project_rules", "011-cursor_project_rules.mdc");
   ("@012-learned_memories", "012-learned_memories.mdc");
   ("@013-cursor_riper_rules", "013-cursor_riper_rules.mdc");
   ("@020-task_list", "020-task_list.mdc");
   ("@021-cursor_environment_rules", "021-cursor_environment_rules.mdc");
   ("@022-cursor_git_rules", "022-cursor_git_rules.mdc");
   ("@030-cursor_task_rules", "030-cursor_task_rules.mdc");
   ("@031-cursor_memory_rules", "031-cursor_memory_rules.mdc");
   ("@032-cursor_quality_rules", "032-cursor_quality_rules.mdc");
   ("@040-cursor_organization_rules", "040-cursor_organization_rules.mdc");
   ("@090-completed_tasks", "090-completed_tasks.mdc");
   ("@091-learned_memories_archive", "091-learned_memories_archive.mdc")].

(** What [validate_directory_structure] asks of the file system: the text
    of the path of the rules directory, whether it exists, which files
    exist in it, and whether the project has a [.cursorrules] file. *)
Record FileSystem : Type := {
  rules_dir : string;
  rules_dir_exists : bool;
  rule_file_exists : string -> bool;
  legacy_file_exists : bool
}.

Definition validate_directory_structure (fs : FileSystem)
    (result : ValidationResult) : ValidationResult :=
  if negb (rules_dir_exists fs) then
    add_error ("Rules directory not found: " ++ rules_dir fs) result
  else
    let result :=
      add_pass ("Rules directory exists: " ++ rules_dir fs) result in
    let result :=
      fold_left
        (fun result '(filename, description) =>
           if rule_file_exists fs filename then
             add_pass ("Found " ++ filename ++ " (" ++ description ++ ")")
                      result
           else
             add_error ("Missing " ++ filename ++ " (" ++ description ++ ")")
                       result)
        required_files result in
    if legacy_file_exists fs then
      add_warning
        "Found legacy .cursorrules file - consider removing to avoid conflicts"
        result
    else result.

Definition _check_file_content (filename content : string)
    (result : ValidationResult) : ValidationResult :=
  let unreplaced_placeholders :=
    filter (fun placeholder => contains placeholder content) placeholders in
  let result :=
    match unreplaced_placeholders with
    | _ :: _ =>
        add_warning
          (filename ++ ": Contains unreplaced placeholders: "
           ++ String.concat ", " unreplaced_placeholders)
          result
    | [] =>
        add_pass (filename ++ ": Placeholders appear to be customized") result
    end in
  let result :=
    if negb (startswith "---" content)
       && contains "description:" (slice_to 500 content)
    then add_pass (filename ++ ": Proper MDC format with metadata") result
    else if startswith "#" content
    then add_pass (filename ++ ": Valid Markdown format") result
    else add_warning (filename ++ ": Unusual file format detected") result in
  let found_refs :=
    filter (fun ref_pattern => contains ref_pattern content)
           (map fst cross_references) in
  match found_refs with
  | _ :: _ =>
      add_pass
        (filename ++ ": Contains "
         ++ Cli.digits_of (Z.of_nat (length found_refs))
         ++ " cross-rule references")
        result
  | [] => result
  end.

(** [re.search(pattern, content, re.IGNORECASE)] finds a match. *)
Class Re : Type := {
  search : string -> string -> bool
}.

Definition project_indicators : list string :=
  ["[A-Za-z]+Service";
   "api\.";
   "npm|pip|cargo|go";
   "React|Django|Flask|Express";
   "\.env|\.json|\.yaml"].

(** One turn of either loop of [_calculate_customization_score]: the
    state is [total_checks] and [passed_checks]. *)
Definition count_check (test : string -> bool) (state : Z * Z)
    (item : string) : Z * Z :=
  let '(total_checks, passed_checks) := state in
  ((total_checks + 1)%Z,
   if test item then (passed_checks + 1)%Z else passed_checks).

Definition _calculate_customization_score `{Re} (content : string) : Q :=
  let state :=
    fold_left
      (count_check (fun placeholder => negb (contains placeholder content)))
      placeholders (0%Z, 0%Z) in
  let '(total_checks, passed_checks) :=
    fold_left (count_check (fun pattern => search pattern content))
              project_indicators state in
  if (total_checks >? 0)%Z
  then (inject_Z passed_checks / inject_Z total_checks * 100)%Q
  else 0%Q.

Definition keyword_files : list (string * list string) :=
  [("010-cursor_general_rules.mdc", ["task"; "quality"; "project"]);
   ("011-cursor_project_rules.mdc", ["code"; "implementation"; "standard"]);
   ("013-cursor_riper_rules.mdc", ["research"; "plan"; "execute"; "review"]);
   ("020-task_list.mdc", ["task"; "priority"; "feature"]);
   ("021-cursor_environment_rules.mdc", ["environment"; "deploy"; "config"]);
   ("032-cursor_quality_rules.mdc", ["quality"; "test"; "validation"])].

(** The body of the loop of [validate_integration_keywords] for a file
    that was read; [content] is the text of the file in lower case. *)
Definition check_keywords (filename : string)
    (expected_keywords : list string) (content : string)
    (result : ValidationResult) : ValidationResult :=
  let found_keywords :=
    filter (fun kw => contains kw content) expected_keywords in
  if (inject_Z (Z.of_nat (length expected_keywords)) * 0.7
      <=? inject_Z (Z.of_nat (length found_keywords)))%Q
  then add_pass (filename ++ ": Auto-trigger keywords configured") result
  else add_warning (filename ++ ": Missing some auto-trigger keywords") result.

End ValidateSetup.

(** ** Comparisons *)

Lemma Qleb_spec (x y : Q) : BoolSpec (x <= y) (y < x) (x <=? y).
Proof.
  unfold Py.Qleb. destruct (Qle_bool x y) eqn:E; constructor.
  - now apply Qle_bool_iff.
  - apply Qnot_le_lt. intros L. apply Qle_bool_iff in L. congruence.
Qed.

Lemma Qltb_spec (x y : Q) : BoolSpec (x < y) (y <= x) (x <? y).
Proof.
  unfold Py.Qltb. change (Qle_bool y x) with (y <=? x).
  destruct (Qleb_spec y x); constructor; assumption.
Qed.

Lemma Qgtb_spec (x y : Q) : BoolSpec (y < x) (x <= y) (x >? y).
Proof. unfold Py.Qgtb. apply Qltb_spec. Qed.

Lemma Qgtb_true (x y : Q) : y < x -> (x >? y) = true.
Proof. intros L. destruct (Qgtb_spec x y); [reflexivity | lra]. Qed.


Lemma Qleb_true (x y : Q) : x <= y -> (x <=? y) = true.
Proof. intros L. destruct (Qleb_spec x y); [reflexivity | lra]. Qed.

Lemma Qleb_false (x y : Q) : y < x -> (x <=? y) = false.
Proof. intros L. destruct (Qleb_spec x y); [lra | reflexivity]. Qed.

Lemma Qltb_true (x y : Q) : x < y -> (x <? y) = true.
Proof. intros L. destruct (Qltb_spec x y); [reflexivity | lra]. Qed.

Lemma Qltb_false (x y : Q) : y <= x -> (x <? y) = false.
Proof. intros L. destruct (Qltb_spec x y); [lra | reflexivity]. Qed.

(** Case analysis on the tests of a goal, one comparison at a time. *)
Ltac case_test :=
  match goal with
  | |- context [Py.Qgtb ?x ?y] => destruct (Qgtb_spec x y)
  | |- context [Py.Qleb ?x ?y] => destruct (Qleb_spec x y)
  | |- context [Py.Qltb ?x ?y] => destruct (Qltb_spec x y)
  | |- context [Z.leb ?x ?y] => destruct (Z.leb_spec x y)
  | |- context [Z.eqb ?x ?y] => destruct (Z.eqb_spec x y)
  end.

Ltac case_tests := repeat (case_test; cbn [andb orb negb]).

(** ** Rounding *)

Lemma round_half_even_comp (x y : Q) :
  x == y -> Py.round_half_even x = Py.round_half_even y.
Proof.
  intros E. unfold Py.round_half_even.
  rewrite (Qfloor_comp _ _ E).
  assert (C : (x - inject_Z (Qfloor y) ?= 1 # 2)
              = (y - inject_Z (Qfloor y) ?= 1 # 2))
    by (apply Qcompare_comp; [rewrite E |]; reflexivity).
  rewrite C. reflexivity.
Qed.


Lemma round_half_even_near (x : Q) :
  x - (1 # 2) <= inject_Z (Py.round_half_even x)
  /\ inject_Z (Py.round_half_even x) <= x + (1 # 2).
Proof.
  unfold Py.round_half_even. cbv zeta.
  pose proof (Qfloor_le x) as Lo. pose proof (Qlt_floor x) as Hi.
  rewrite inject_Z_plus in Hi. change (inject_Z 1) with 1 in Hi.
  destruct (Qcompare_spec (x - inject_Z (Qfloor x)) (1 # 2)) as [E | L | G].
  - destruct (Z.even (Qfloor x)).
    + split; lra.
    + rewrite inject_Z_plus. change (inject_Z 1) with 1. split; lra.
  - split; lra.
  - rewrite inject_Z_plus. change (inject_Z 1) with 1. split; lra.
Qed.


Lemma round_2_cents (x : Q) :
  Py.round x 2 = Py.round_half_even (x * 100) # 100.
Proof. reflexivity. Qed.

Lemma cents_value (n : Z) : n # 100 == inject_Z n * (1 # 100).
Proof. unfold Qeq. cbn. lia. Qed.

Lemma round_2_near (x : Q) : Qabs (Py.round x 2 - x) <= 1 # 200.
Proof.
  rewrite round_2_cents, cents_value.
  destruct (round_half_even_near (x * 100)) as [Lo Hi].
  apply Qabs_Qle_condition. split; lra.
Qed.

(** ** The outlier classifier *)

(** Each test of the classifier decides its rule. *)
Lemma gaming_test days miles receipts :
  (receipts >? 2000) && (days <=? 4)%Z && (miles <=? 100) = true
  <-> gaming_rule days miles receipts.
Proof.
  unfold gaming_rule. rewrite !andb_true_iff, Z.leb_le.
  destruct (Qgtb_spec receipts 2000), (Qleb_spec miles 100);
    intuition (try discriminate; try lra).
Qed.

Lemma heavy_test days miles receipts :
  (receipts >? 2300) && (days <=? 5)%Z && (miles <=? 100) = true
  <-> heavy_rule days miles receipts.
Proof.
  unfold heavy_rule. rewrite !andb_true_iff, Z.leb_le.
  destruct (Qgtb_spec receipts 2300), (Qleb_spec miles 100);
    intuition (try discriminate; try lra).
Qed.

Lemma abuse_test days miles receipts :
  (days =? 1)%Z && (miles >? 1000) && (receipts >? 1800) = true
  <-> abuse_rule days miles receipts.
Proof.
  unfold abuse_rule. rewrite !andb_true_iff, Z.eqb_eq.
  destruct (Qgtb_spec miles 1000), (Qgtb_spec receipts 1800);
    intuition (try discriminate; try lra).
Qed.

Lemma test_false (P : Prop) : (false = true <-> P) -> ~ P.
Proof. intros I HP. apply I in HP. discriminate. Qed.

(** The classifier, rule by rule in source order. *)
Lemma detect_cases days miles receipts :
  (gaming_rule days miles receipts
   /\ detect_outlier_case days miles receipts = "gaming_detection"%string)
  \/ (~ gaming_rule days miles receipts /\ heavy_rule days miles receipts
      /\ detect_outlier_case days miles receipts = "heavy_cap"%string)
  \/ (~ gaming_rule days miles receipts /\ ~ heavy_rule days miles receipts
      /\ abuse_rule days miles receipts
      /\ detect_outlier_case days miles receipts = "abuse_detection"%string)
  \/ (~ gaming_rule days miles receipts /\ ~ heavy_rule days miles receipts
      /\ ~ abuse_rule days miles receipts
      /\ detect_outlier_case days miles receipts = "normal"%string).
Proof.
  unfold detect_outlier_case. cbv zeta.
  pose proof (gaming_test days miles receipts) as G.
  pose proof (heavy_test days miles receipts) as Hv.
  pose proof (abuse_test days miles receipts) as A.
  destruct ((receipts >? 2000) && (days <=? 4)%Z && (miles <=? 100)).
  { left. split; [now apply G | reflexivity]. }
  apply test_false in G. right.
  destruct ((receipts >? 2300) && (days <=? 5)%Z && (miles <=? 100)).
  { left. split; [assumption |]. split; [now apply Hv | reflexivity]. }
  apply test_false in Hv. right.
  destruct ((days =? 1)%Z && (miles >? 1000) && (receipts >? 1800)).
  { left. repeat split; try assumption; now apply A. }
  apply test_false in A. right. repeat split; assumption.
Qed.

Lemma detect_gaming days miles receipts :
  gaming_rule days miles receipts ->
  detect_outlier_case days miles receipts = "gaming_detection"%string.
Proof.
  intros Hg.
  destruct (detect_cases days miles receipts)
    as [(_ & E) | [(N & _) | [(N & _) | (N & _)]]];
    [exact E | contradiction | contradiction | contradiction].
Qed.

Lemma calculate_outlier_reimbursement_branch days miles receipts outlier_type :
  calculate_outlier_reimbursement days miles receipts outlier_type =
  match outlier_branch_of outlier_type with
  | HeavyCapBranch =>
      inject_Z (days * 45) + miles * 0.4 + receipts * 0.15
  | AbuseDetectionBranch =>
      inject_Z (days * 40) + miles * 0.35 + receipts * 0.12
  | SpendingCapBranch =>
      inject_Z (days * 50) + miles * 0.45
        + Qmin receipts (inject_Z (days * 250)) * 0.2
  | GamingDetectionBranch =>
      inject_Z (days * 35) + miles * 0.3 + receipts * 0.08
  | FallbackBranch =>
      inject_Z (days * 50) + miles * 0.5 + receipts * 0.1
  end.
Proof.
  unfold calculate_outlier_reimbursement, outlier_branch_of.
  repeat match goal with
         | |- context [String.eqb ?a ?b] => destruct (String.eqb a b)
         end; reflexivity.
Qed.

(** C1 (evaluation at the case the claim names): the trip of 4 days, 69 miles
    and 2321 of receipts is tagged gaming_detection, not heavy_cap, and is
    reimbursed 346.38; the heavy_cap formula would have given 555.75. *)
Theorem case_152_is_gaming_detection `{Py.StrConv} :
  detect_outlier_case 4 69 2321 = "gaming_detection"%string
  /\ calculate_reimbursement (Py.VInt 4) (Py.VFloat 69) (Py.VFloat 2321)
     = inr 346.38
  /\ calculate_outlier_reimbursement 4 69 2321 "heavy_cap" == 555.75
  /\ ~ 346.38 == 555.75.
Proof.
  split; [reflexivity |].
  split; [vm_compute; reflexivity |].
  split; [reflexivity | discriminate].
Qed.

(** C3: whenever the gaming_detection rule and the heavy_cap rule both match,
    the classifier answers gaming_detection; the trip of 3 days, 50 miles and
    2350 of receipts is tagged gaming_detection and not heavy_cap. *)
Theorem gaming_detection_shadows_heavy_cap :
  (forall days miles receipts,
      gaming_rule days miles receipts ->
      heavy_rule days miles receipts ->
      detect_outlier_case days miles receipts = "gaming_detection"%string)
  /\ gaming_rule 3 50 2350
  /\ heavy_rule 3 50 2350
  /\ detect_outlier_case 3 50 2350 = "gaming_detection"%string
  /\ detect_outlier_case 3 50 2350 <> "heavy_cap"%string.
Proof.
  split; [intros days miles receipts Hg _; now apply detect_gaming |].
  unfold gaming_rule, heavy_rule.
  repeat split; try lra; try lia; try reflexivity.
  vm_compute. discriminate.
Qed.

Lemma gaming_detection_shadows_heavy_cap_witness :
  detect_outlier_case 4 100 2301 = "gaming_detection"%string.
Proof.
  apply (proj1 gaming_detection_shadows_heavy_cap 4%Z 100 2301);
    unfold gaming_rule, heavy_rule; repeat split; try lra; lia.
Defined.

(** C8: the classifier answers one of the four tags normal,
    gaming_detection, heavy_cap and abuse_detection, each of which occurs; so
    when [calculate_reimbursement] calls [calculate_outlier_reimbursement]
    (the tag is not normal), neither the spending_cap branch nor the fallback
    branch is the one taken. *)
Theorem classifier_tags_and_dead_branches :
  (forall days miles receipts,
      In (detect_outlier_case days miles receipts)
         ["normal"; "gaming_detection"; "heavy_cap"; "abuse_detection"]%string)
  /\ (detect_outlier_case 1 0 0 = "normal"%string
      /\ detect_outlier_case 3 50 2350 = "gaming_detection"%string
      /\ detect_outlier_case 5 50 2350 = "heavy_cap"%string
      /\ detect_outlier_case 1 1082 1809 = "abuse_detection"%string)
  /\ (forall days miles receipts,
      let outlier_type := detect_outlier_case days miles receipts in
      outlier_type <> "spending_cap"%string
      /\ (negb (outlier_type =? "normal")%string = true ->
          outlier_branch_of outlier_type <> SpendingCapBranch
          /\ outlier_branch_of outlier_type <> FallbackBranch)).
Proof.
  split; [| split].
  - intros days miles receipts. cbn [In].
    destruct (detect_cases days miles receipts)
      as [(_ & ->) | [(_ & _ & ->) | [(_ & _ & _ & ->) | (_ & _ & _ & ->)]]];
      auto.
  - repeat split; reflexivity.
  - intros days miles receipts outlier_type. subst outlier_type.
    destruct (detect_cases days miles receipts)
      as [(_ & ->) | [(_ & _ & ->) | [(_ & _ & _ & ->) | (_ & _ & _ & ->)]]];
      (split; [discriminate | cbn; intros; split; congruence]).
Qed.

Lemma classifier_tags_and_dead_branches_witness :
  outlier_branch_of (detect_outlier_case 5 50 2350) <> SpendingCapBranch
  /\ outlier_branch_of (detect_outlier_case 5 50 2350) <> FallbackBranch.
Proof.
  apply (proj2 (proj2 classifier_tags_and_dead_branches) 5%Z 50 2350).
  reflexivity.
Defined.

(** C9: on valid inputs the classifier answers heavy_cap exactly for the
    5-day trips with receipts above 2300 and at most 100 miles. *)
Theorem heavy_cap_iff_five_days days miles receipts :
  (0 < days)%Z -> 0 <= miles -> 0 <= receipts ->
  detect_outlier_case days miles receipts = "heavy_cap"%string
  <-> days = 5%Z /\ 2300 < receipts /\ miles <= 100.
Proof.
  intros _ _ _.
  destruct (detect_cases days miles receipts)
    as [(Hg & E) | [(Hg & Hh & E) | [(Hg & Hh & _ & E) | (Hg & Hh & _ & E)]]];
    rewrite E; unfold gaming_rule, heavy_rule in *; split;
    try discriminate; try reflexivity.
  - intros (-> & Hr & Hm). destruct Hg as (Hr' & Hd & _). lia.
  - intros _. destruct Hh as (Hr & Hd & Hm).
    repeat split; try assumption.
    assert (~ (days <= 4)%Z)
      by (intros Hd'; apply Hg; repeat split; [lra | lia | lra]).
    lia.
  - intros (-> & Hr & Hm). exfalso. apply Hh. repeat split; [lra | lia | lra].
  - intros (-> & Hr & Hm). exfalso. apply Hh. repeat split; [lra | lia | lra].
Qed.

Lemma heavy_cap_iff_five_days_witness :
  detect_outlier_case 5 100 2300.01 = "heavy_cap"%string
  <-> 5%Z = 5%Z /\ 2300 < 2300.01 /\ 100 <= 100.
Proof.
  apply (heavy_cap_iff_five_days 5 100 2300.01); [lia | lra | lra].
Defined.

(** ** The outlier formulas *)

(** C5: for each tag that names an outlier, the result is the linear
    combination of the coefficient table, with receipts capped at
    [days * 250] for spending_cap only; the function does not round: on one
    day, a hundredth of a mile and no receipts, no tag gives a whole number
    of cents. *)
Theorem outlier_reimbursement_is_linear days miles receipts :
  calculate_outlier_reimbursement days miles receipts "heavy_cap"
    == inject_Z days * 45 + miles * 0.4 + receipts * 0.15
  /\ calculate_outlier_reimbursement days miles receipts "abuse_detection"
    == inject_Z days * 40 + miles * 0.35 + receipts * 0.12
  /\ calculate_outlier_reimbursement days miles receipts "gaming_detection"
    == inject_Z days * 35 + miles * 0.3 + receipts * 0.08
  /\ calculate_outlier_reimbursement days miles receipts "spending_cap"
    == inject_Z days * 50 + miles * 0.45
       + Qmin receipts (inject_Z days * 250) * 0.2
  /\ forall outlier_type,
      In outlier_type
        ["heavy_cap"; "abuse_detection"; "gaming_detection";
         "spending_cap"]%string ->
      forall cents : Z,
        ~ calculate_outlier_reimbursement 1 0.01 0 outlier_type
          == cents # 100.
Proof.
  split; [| split; [| split; [| split]]].
  - rewrite calculate_outlier_reimbursement_branch.
    change (outlier_branch_of "heavy_cap") with HeavyCapBranch.
    cbv iota. rewrite inject_Z_mult. reflexivity.
  - rewrite calculate_outlier_reimbursement_branch.
    change (outlier_branch_of "abuse_detection") with AbuseDetectionBranch.
    cbv iota. rewrite inject_Z_mult. reflexivity.
  - rewrite calculate_outlier_reimbursement_branch.
    change (outlier_branch_of "gaming_detection") with GamingDetectionBranch.
    cbv iota. rewrite inject_Z_mult. reflexivity.
  - rewrite calculate_outlier_reimbursement_branch.
    change (outlier_branch_of "spending_cap") with SpendingCapBranch.
    cbv iota. rewrite !inject_Z_mult. reflexivity.
  - intros outlier_type Hin cents.
    cbn [In] in Hin.
    destruct Hin as [<- | [<- | [<- | [<- | []]]]];
      match goal with
      | |- ~ ?v == _ => let q := eval vm_compute in v in change v with q
      end;
      unfold Qeq; cbn [Qnum Qden]; lia.
Qed.

Lemma outlier_reimbursement_is_linear_witness :
  ~ calculate_outlier_reimbursement 1 0.01 0 "heavy_cap" == 4500 # 100.
Proof.
  apply (proj2 (proj2 (proj2 (proj2
           (outlier_reimbursement_is_linear 1 0.01 0))))).
  cbn [In]. left. reflexivity.
Defined.

(** ** The top-level function *)

(** Integer sub-expressions of the source, read in [Q]. *)
Ltac in_Q :=
  repeat first
    [ rewrite inject_Z_plus | rewrite inject_Z_mult ];
  repeat match goal with
    | |- context [inject_Z (Zpos ?p)] =>
        change (inject_Z (Zpos p)) with (Zpos p # 1)
    end.

Section TopLevelFacts.
Context `{Py.StrConv}.

(** Coercions raise nothing but [ValueError] and [TypeError]. *)
Lemma int_raises a e :
  Py.int a = inl e -> e = Py.ValueError \/ e = Py.TypeError.
Proof.
  destruct a as [z | q | s |]; cbn;
    [discriminate | discriminate | | intros [= <-]; now right].
  destruct (Py.int_of_str s); [discriminate | intros [= <-]; now left].
Qed.

Lemma float_raises a e :
  Py.float a = inl e -> e = Py.ValueError \/ e = Py.TypeError.
Proof.
  destruct a as [z | q | s |]; cbn;
    [discriminate | discriminate | | intros [= <-]; now right].
  destruct (Py.float_of_str s); [discriminate | intros [= <-]; now left].
Qed.

(** The three ways out of the [try] block. *)
Lemma calculate_reimbursement_valid a b c days miles receipts :
  Py.int a = inr days -> Py.float b = inr miles ->
  Py.float c = inr receipts ->
  (0 < days)%Z -> 0 <= miles -> 0 <= receipts ->
  calculate_reimbursement a b c
  = inr (Py.round (reimbursement_total days miles receipts) 2).
Proof.
  intros Ha Hb Hc Hd Hm Hr.
  unfold calculate_reimbursement, calculate_reimbursement_try.
  rewrite Ha, Hb, Hc. cbn [bind catch Monad_either Exception_either].
  rewrite (Qltb_false _ _ Hm), (Qltb_false _ _ Hr).
  destruct (Z.leb_spec days 0); [lia | reflexivity].
Qed.


End TopLevelFacts.



(** ** The normal branches *)

Lemma reimbursement_total_normal days miles receipts :
  detect_outlier_case days miles receipts = "normal"%string ->
  reimbursement_total days miles receipts
  == if receipts >? 800 then
       100 + inject_Z days * 20 + miles * 0.3
         + calculate_receipt_component receipts
     else if receipts >? 200 then
       50 + inject_Z days * 35 + miles * 0.4 + receipts * 0.8
     else
       inject_Z days * 50 + miles * 0.5 + receipts * 0.1.
Proof.
  intros E. unfold reimbursement_total. rewrite E. cbv zeta.
  rewrite String.eqb_refl. cbn [negb].
  destruct (receipts >? 800); [| destruct (receipts >? 200)];
    in_Q; ring.
Qed.



(** ** Non-negativity and precision *)





(** ** The banded receipt component at its boundaries *)

(** On the band above a boundary the component is affine: base term plus
    rate times the excess. *)
Lemma affine_approaches (f : Q -> Q) (b base rate width : Q) :
  0 < width -> 0 <= rate -> rate <= 3 ->
  (forall r, b < r -> r <= b + width -> f r == base + (r - b) * rate) ->
  approaches_from_above f b base.
Proof.
  intros Hw Hr0 Hr3 Hf eps Heps.
  destruct (Qlt_le_dec eps (3 * width)) as [Small | Large].
  - exists (eps * (1 # 3)). split; [lra |].
    intros r Lo Hi. rewrite Hf by lra.
    apply Qabs_Qlt_condition.
    assert (0 <= (r - b) * rate) by (apply Qmult_le_0_compat; lra).
    assert ((r - b) * rate <= (r - b) * 3)
      by (apply Qmult_le_l; lra).
    split; lra.
  - exists width. split; [lra |].
    intros r Lo Hi. rewrite Hf by lra.
    apply Qabs_Qlt_condition.
    assert (0 <= (r - b) * rate) by (apply Qmult_le_0_compat; lra).
    assert ((r - b) * rate <= (r - b) * 3)
      by (apply Qmult_le_l; lra).
    split; lra.
Qed.

Lemma band_above_50 r :
  50 < r -> r <= 50 + 150 ->
  calculate_receipt_component r == 50 * 3.610 + (r - 50) * 2.258.
Proof.
  intros Lo Hi. unfold calculate_receipt_component. cbv zeta.
  case_tests; lra.
Qed.

Lemma band_above_200 r :
  200 < r -> r <= 200 + 300 ->
  calculate_receipt_component r == 200 * 2.258 + (r - 200) * 1.610.
Proof.
  intros Lo Hi. unfold calculate_receipt_component. cbv zeta.
  case_tests; lra.
Qed.

Lemma band_above_500 r :
  500 < r -> r <= 500 + 500 ->
  calculate_receipt_component r == 500 * 1.610 + (r - 500) * 0.998.
Proof.
  intros Lo Hi. unfold calculate_receipt_component. cbv zeta.
  case_tests; lra.
Qed.

Lemma band_above_1000 r :
  1000 < r -> r <= 1000 + 1 ->
  calculate_receipt_component r == 1000 * 0.998 + (r - 1000) * 0.3.
Proof.
  intros Lo Hi. unfold calculate_receipt_component. cbv zeta.
  case_tests; lra.
Qed.

Lemma limit_unique_gap (f : Q -> Q) (b limit other : Q) :
  approaches_from_above f b limit -> limit < other ->
  ~ approaches_from_above f b other.
Proof.
  intros Hl Hlt Ho.
  destruct (Hl ((other - limit) * (1 # 2))) as (d1 & Hd1 & H1); [lra |].
  destruct (Ho ((other - limit) * (1 # 2))) as (d2 & Hd2 & H2); [lra |].
  destruct (Qlt_le_dec d1 d2) as [L | L].
  - specialize (H1 (b + d1 * (1 # 2))). specialize (H2 (b + d1 * (1 # 2))).
    apply Qabs_Qlt_condition in H1; [| lra | lra].
    apply Qabs_Qlt_condition in H2; [| lra | lra].
    lra.
  - specialize (H1 (b + d2 * (1 # 2))). specialize (H2 (b + d2 * (1 # 2))).
    apply Qabs_Qlt_condition in H1; [| lra | lra].
    apply Qabs_Qlt_condition in H2; [| lra | lra].
    lra.
Qed.

Lemma receipt_component_limits :
  approaches_from_above calculate_receipt_component 50 (50 * 3.610)
  /\ approaches_from_above calculate_receipt_component 200 (200 * 2.258)
  /\ approaches_from_above calculate_receipt_component 500 (500 * 1.610)
  /\ approaches_from_above calculate_receipt_component 1000 (1000 * 0.998).
Proof.
  split; [| split; [| split]].
  - apply (affine_approaches _ 50 _ 2.258 150); try lra.
    exact band_above_50.
  - apply (affine_approaches _ 200 _ 1.610 300); try lra.
    exact band_above_200.
  - apply (affine_approaches _ 500 _ 0.998 500); try lra.
    exact band_above_500.
  - apply (affine_approaches _ 1000 _ 0.3 1); try lra.
    exact band_above_1000.
Qed.

(** C2, as stated, fails at the boundary 200: the base term of the band
    above, 200 * 2.258 = 451.60, is not the previous band's formula at 200,
    which is 519.20; approached from the band above the component tends to
    451.60 and not to its value at 200.  So it is not continuous at every
    band boundary. *)
Lemma receipt_component_discontinuous_at_200 :
  In 200 band_boundaries
  /\ ~ 200 * 2.258 == 50 * 3.610 + (200 - 50) * 2.258
  /\ ~ continuous_from_above calculate_receipt_component 200
  /\ ~ (forall b,
         In b band_boundaries ->
         continuous_from_above calculate_receipt_component b).
Proof.
  assert (D : ~ continuous_from_above calculate_receipt_component 200).
  { apply (limit_unique_gap _ 200 (200 * 2.258)).
    - apply receipt_component_limits.
    - vm_compute. reflexivity. }
  split; [cbn; auto |]. split; [discriminate |]. split; [exact D |].
  intros C. apply D, C. cbn. auto.
Qed.

(** C2, amended: the component is continuous from above at the boundary 50,
    where both branch formulas give 50 * 3.610 = 180.50.  At 200, 500 and
    1000 the band above starts from the base terms 200 * 2.258 = 451.60,
    500 * 1.610 = 805.00 and 1000 * 0.998 = 998.00, to which the component
    tends from above, while its values at these boundaries are 519.20,
    934.60 and 1304.00. *)
Theorem receipt_component_boundaries :
  (continuous_from_above calculate_receipt_component 50
   /\ calculate_receipt_component 50 == 180.50
   /\ 50 * 3.610 + (50 - 50) * 2.258 == 180.50)
  /\ (approaches_from_above calculate_receipt_component 200 451.60
      /\ calculate_receipt_component 200 == 519.20)
  /\ (approaches_from_above calculate_receipt_component 500 805.00
      /\ calculate_receipt_component 500 == 934.60)
  /\ (approaches_from_above calculate_receipt_component 1000 998.00
      /\ calculate_receipt_component 1000 == 1304.00)
  /\ (forall r, 50 < r -> r <= 200 ->
      calculate_receipt_component r == 180.50 + (r - 50) * 2.258)
  /\ (forall r, 200 < r -> r <= 500 ->
      calculate_receipt_component r == 451.60 + (r - 200) * 1.610)
  /\ (forall r, 500 < r -> r <= 1000 ->
      calculate_receipt_component r == 805.00 + (r - 500) * 0.998)
  /\ (forall r, 1000 < r ->
      calculate_receipt_component r == 998.00 + (r - 1000) * 0.3).
Proof.
  destruct receipt_component_limits as (L50 & L200 & L500 & L1000).
  assert (Lim : forall b base limit,
             base == limit ->
             approaches_from_above calculate_receipt_component b base ->
             approaches_from_above calculate_receipt_component b limit).
  { intros b base limit E A eps Heps.
    destruct (A eps Heps) as (delta & Hd & Hr).
    exists delta. split; [assumption |].
    intros r Lo Hi. rewrite <- E. now apply Hr. }
  split; [split; [exact L50 | split; reflexivity] |].
  split; [split; [now apply (Lim _ _ _ (eq_refl : 200 * 2.258 == 451.60))
                 | reflexivity] |].
  split; [split; [now apply (Lim _ _ _ (eq_refl : 500 * 1.610 == 805.00))
                 | reflexivity] |].
  split; [split; [now apply (Lim _ _ _ (eq_refl : 1000 * 0.998 == 998.00))
                 | reflexivity] |].
  repeat split; intros r Lo; try intros Hi;
    unfold calculate_receipt_component; cbv zeta; case_tests; lra.
Qed.

Lemma receipt_component_boundaries_witness :
  calculate_receipt_component 125 == 180.50 + (125 - 50) * 2.258.
Proof.
  apply (proj1 (proj2 (proj2 (proj2 (proj2 receipt_component_boundaries)))));
    lra.
Defined.

(** C10: the banded receipt component is not monotone: it is 519.20 at 200
    and 453.21 at 201, and it jumps down at 200, 500 and 1000; two normal
    trips with receipts above 800 that differ in receipts only can see the
    one with more receipts reimbursed strictly less. *)
Theorem receipt_component_not_monotone `{Py.StrConv} :
  (calculate_receipt_component 200 == 50 * 3.610 + 150 * 2.258
   /\ calculate_receipt_component 200 == 519.20)
  /\ (calculate_receipt_component 201 == 200 * 2.258 + 1 * 1.610
      /\ calculate_receipt_component 201 == 453.21)
  /\ jumps_down calculate_receipt_component 200
  /\ jumps_down calculate_receipt_component 500
  /\ jumps_down calculate_receipt_component 1000
  /\ ~ (forall r1 r2,
         r1 <= r2 ->
         calculate_receipt_component r1 <= calculate_receipt_component r2)
  /\ exists days miles r1 r2 amount1 amount2,
      (0 < days)%Z /\ 0 <= miles /\ 800 < r1 /\ r1 < r2
      /\ detect_outlier_case days miles r1 = "normal"%string
      /\ detect_outlier_case days miles r2 = "normal"%string
      /\ calculate_reimbursement
           (Py.VInt days) (Py.VFloat miles) (Py.VFloat r1) = inr amount1
      /\ calculate_reimbursement
           (Py.VInt days) (Py.VFloat miles) (Py.VFloat r2) = inr amount2
      /\ amount2 < amount1.
Proof.
  split; [split; reflexivity |]. split; [split; reflexivity |].
  split; [| split; [| split; [| split]]].
  - exists 1, 60. split; [lra |]. split; [lra |].
    intros r Lo Hi. rewrite band_above_200 by lra.
    change (calculate_receipt_component 200)
      with (50 * 3.610 + (200 - 50) * 2.258).
    lra.
  - exists 1, 100. split; [lra |]. split; [lra |].
    intros r Lo Hi. rewrite band_above_500 by lra.
    change (calculate_receipt_component 500)
      with (200 * 2.258 + (500 - 200) * 1.610).
    lra.
  - exists 1, 300. split; [lra |]. split; [lra |].
    intros r Lo Hi. rewrite band_above_1000 by lra.
    change (calculate_receipt_component 1000)
      with (500 * 1.610 + (1000 - 500) * 0.998).
    lra.
  - intros Mono. specialize (Mono 200 201).
    assert (L : 200 <= 201) by lra. apply Mono in L.
    revert L. vm_compute. intros L. apply L. reflexivity.
  - exists 6%Z, 0, 1000, 1001, 1524.00, 1218.30.
    split; [lia |]. split; [lra |]. split; [lra |]. split; [lra |].
    split; [reflexivity |]. split; [reflexivity |].
    split; [vm_compute; reflexivity |].
    split; [vm_compute; reflexivity | lra].
Qed.

(** ** The rational model against IEEE doubles *)

(** On every listed trip the binary64 run classifies as the rational model
    does and returns the double nearest to the rational model's amount. *)
Lemma binary64_agrees_on_scenarios :
  Forall
    (fun '(days, miles, receipts) =>
       Binary64.detect_outlier_case days
         (Binary64.of_decimal miles) (Binary64.of_decimal receipts)
       = detect_outlier_case days miles receipts
       /\ Binary64.reimbursement days
            (Binary64.of_decimal miles) (Binary64.of_decimal receipts)
          = Binary64.of_decimal
              (Py.round (reimbursement_total days miles receipts) 2))
    scenarios.
Proof. repeat constructor; vm_compute; reflexivity. Qed.

(** Python's own examples of [round]: 2.675 is stored just below the tie
    and rounds down; 0.125 is an exact tie and rounds to the even 0.12. *)
Lemma binary64_round_examples :
  Binary64.round 2.675%float 2 = 2.67%float
  /\ Binary64.round 0.125%float 2 = 0.12%float
  /\ Py.round 0.125 2 = 0.12
  /\ Py.round 2.675 2 = 2.68.
Proof. repeat split; vm_compute; reflexivity. Qed.

(** ** The classifier on doubles

    The comparisons of the classifier on any double, non-finite ones
    included, from the specification of [<?] on doubles. *)

Lemma binary64_above_2300 (r : float) :
  Binary64.gtb r 2300 = true -> Binary64.gtb r 2000 = true.
Proof.
  unfold Binary64.gtb. rewrite !ltb_spec.
  let v := eval vm_compute in (Prim2SF 2300) in
  change (Prim2SF 2300) with v.
  let v := eval vm_compute in (Prim2SF 2000) in
  change (Prim2SF 2000) with v.
  unfold SFltb, SFcompare.
  destruct (Prim2SF r) as [s | s | | s m e]; try (destruct s);
    try congruence.
  destruct (Z.compare_spec (-41) e) as [E | L | G].
  - subst e. intros _. reflexivity.
  - intros _. assert (C : (-42 ?= e)%Z = Lt) by (apply Z.compare_lt_iff; lia).
    rewrite C. reflexivity.
  - discriminate.
Qed.

(** On doubles too the classifier answers heavy_cap exactly for 5-day trips
    with receipts above 2300 and at most 100 miles. *)
Lemma binary64_heavy_cap_iff_five_days days (miles receipts : float) :
  Binary64.detect_outlier_case days miles receipts = "heavy_cap"%string
  <-> days = 5%Z /\ Binary64.gtb receipts 2300 = true
      /\ (miles <=? 100)%float = true.
Proof.
  unfold Binary64.detect_outlier_case.
  pose proof (binary64_above_2300 receipts) as Above.
  destruct (Binary64.gtb receipts 2300), (Binary64.gtb receipts 2000),
    (miles <=? 100)%float, (Z.leb_spec days 4), (Z.leb_spec days 5),
    (Z.eqb_spec days 1), (Binary64.gtb miles 1000),
    (Binary64.gtb receipts 1800); cbn [andb];
    (split; [intros E; try discriminate E | intros (E1 & E2 & E3)]);
    try discriminate; try lia; try (specialize (Above eq_refl); discriminate);
    try reflexivity; repeat split; lia.
Qed.

(** On doubles too the classifier answers one of its four tags, whatever the
    doubles, and a trip matching the first pattern is tagged
    gaming_detection. *)
Lemma binary64_classifier_tags days (miles receipts : float) :
  In (Binary64.detect_outlier_case days miles receipts)
     ["normal"; "gaming_detection"; "heavy_cap"; "abuse_detection"]%string
  /\ (Binary64.gtb receipts 2000 = true -> (days <= 4)%Z ->
      (miles <=? 100)%float = true ->
      Binary64.detect_outlier_case days miles receipts
      = "gaming_detection"%string).
Proof.
  unfold Binary64.detect_outlier_case. split.
  - repeat match goal with
           | |- context [if ?b then _ else _] => destruct b
           end; cbn; auto.
  - intros -> Hd ->. apply Z.leb_le in Hd. rewrite Hd. reflexivity.
Qed.

(** ** Further properties of the formula *)



Lemma round_half_even_monotone (x y : Q) :
  x <= y -> (Py.round_half_even x <= Py.round_half_even y)%Z.
Proof.
  intros L.
  destruct (Z_le_gt_dec (Py.round_half_even x) (Py.round_half_even y))
    as [Le | Gt]; [exact Le | exfalso].
  destruct (round_half_even_near x) as [_ Hx].
  destruct (round_half_even_near y) as [Hy _].
  assert (S : inject_Z (Py.round_half_even y) + 1
              <= inject_Z (Py.round_half_even x)).
  { change 1 with (inject_Z 1). rewrite <- inject_Z_plus, <- Zle_Qle. lia. }
  assert (E : x == y) by lra.
  apply round_half_even_comp in E. lia.
Qed.

Lemma round_2_monotone (x y : Q) : x <= y -> Py.round x 2 <= Py.round y 2.
Proof.
  intros L. rewrite !round_2_cents. unfold Qle. cbn [Qnum Qden].
  apply Z.mul_le_mono_nonneg_r; [lia |].
  apply round_half_even_monotone. lra.
Qed.


(** The total of each tag, in [Q]. *)
Lemma reimbursement_total_outlier days miles receipts :
  detect_outlier_case days miles receipts <> "normal"%string ->
  reimbursement_total days miles receipts
  = calculate_outlier_reimbursement days miles receipts
      (detect_outlier_case days miles receipts).
Proof.
  intros N. unfold reimbursement_total. cbv zeta.
  destruct (String.eqb_spec
              (detect_outlier_case days miles receipts) "normal");
    [contradiction | reflexivity].
Qed.

Lemma reimbursement_total_gaming days miles receipts :
  detect_outlier_case days miles receipts = "gaming_detection"%string ->
  reimbursement_total days miles receipts
  == inject_Z days * 35 + miles * 0.3 + receipts * 0.08.
Proof.
  intros E. rewrite reimbursement_total_outlier by (rewrite E; discriminate).
  rewrite E, calculate_outlier_reimbursement_branch.
  change (outlier_branch_of "gaming_detection") with GamingDetectionBranch.
  cbv iota. in_Q. reflexivity.
Qed.

Lemma reimbursement_total_heavy days miles receipts :
  detect_outlier_case days miles receipts = "heavy_cap"%string ->
  reimbursement_total days miles receipts
  == inject_Z days * 45 + miles * 0.4 + receipts * 0.15.
Proof.
  intros E. rewrite reimbursement_total_outlier by (rewrite E; discriminate).
  rewrite E, calculate_outlier_reimbursement_branch.
  change (outlier_branch_of "heavy_cap") with HeavyCapBranch.
  cbv iota. in_Q. reflexivity.
Qed.

Lemma reimbursement_total_abuse days miles receipts :
  detect_outlier_case days miles receipts = "abuse_detection"%string ->
  reimbursement_total days miles receipts
  == inject_Z days * 40 + miles * 0.35 + receipts * 0.12.
Proof.
  intros E. rewrite reimbursement_total_outlier by (rewrite E; discriminate).
  rewrite E, calculate_outlier_reimbursement_branch.
  change (outlier_branch_of "abuse_detection") with AbuseDetectionBranch.
  cbv iota. in_Q. reflexivity.
Qed.

Lemma days_in_Q (d d' : Z) : (d <= d')%Z -> inject_Z d <= inject_Z d'.
Proof. intros L. now rewrite <- Zle_Qle. Qed.


Section ZeroResult.
Context `{Py.StrConv}.



End ZeroResult.

(** Each tag against the patterns: the abuse pattern (more than 1000
    miles) excludes the two receipt patterns (at most 100 miles). *)
Lemma detect_by_pattern days miles receipts :
  (detect_outlier_case days miles receipts = "gaming_detection"%string
   <-> gaming_rule days miles receipts)
  /\ (detect_outlier_case days miles receipts = "heavy_cap"%string
      <-> heavy_rule days miles receipts /\ ~ gaming_rule days miles receipts)
  /\ (detect_outlier_case days miles receipts = "abuse_detection"%string
      <-> abuse_rule days miles receipts)
  /\ (detect_outlier_case days miles receipts = "normal"%string
      <-> ~ gaming_rule days miles receipts
          /\ ~ heavy_rule days miles receipts
          /\ ~ abuse_rule days miles receipts).
Proof.
  assert (Apart : abuse_rule days miles receipts ->
                  ~ gaming_rule days miles receipts
                  /\ ~ heavy_rule days miles receipts).
  { intros (_ & M & _). split; intros (_ & _ & M'); lra. }
  destruct (detect_cases days miles receipts)
    as [(G & E) | [(G & Hv & E) | [(G & Hv & A & E) | (G & Hv & A & E)]]];
    rewrite E; (split; [| split; [| split]]); split; intros;
    try discriminate; try reflexivity; try tauto; exfalso; tauto.
Qed.

(** X2: each tag is answered exactly when its own pattern holds and no
    earlier one does; the abuse pattern (more than 1000 miles) excludes the
    two receipt patterns (at most 100 miles), so abuse_detection is answered
    exactly when its pattern holds, whatever the rule order. *)
Theorem classifier_decides_by_pattern days miles receipts :
  (detect_outlier_case days miles receipts = "gaming_detection"%string
   <-> 2000 < receipts /\ (days <= 4)%Z /\ miles <= 100)
  /\ (detect_outlier_case days miles receipts = "heavy_cap"%string
      <-> (2300 < receipts /\ (days <= 5)%Z /\ miles <= 100)
          /\ ~ (2000 < receipts /\ (days <= 4)%Z /\ miles <= 100))
  /\ (detect_outlier_case days miles receipts = "abuse_detection"%string
      <-> days = 1%Z /\ 1000 < miles /\ 1800 < receipts)
  /\ (detect_outlier_case days miles receipts = "normal"%string
      <-> ~ (2000 < receipts /\ (days <= 4)%Z /\ miles <= 100)
          /\ ~ (2300 < receipts /\ (days <= 5)%Z /\ miles <= 100)
          /\ ~ (days = 1%Z /\ 1000 < miles /\ 1800 < receipts)).
Proof. exact (detect_by_pattern days miles receipts). Qed.

Section WithinATag.
Context `{Py.StrConv}.

(** X3: between two valid trips with the same receipts and the same tag,
    the one with no fewer days and no fewer miles is reimbursed no less. *)
Theorem more_travel_same_tag_pays_no_less
    a b c a' b' c' days days' miles miles' receipts :
  Py.int a = inr days -> Py.float b = inr miles ->
  Py.float c = inr receipts ->
  Py.int a' = inr days' -> Py.float b' = inr miles' ->
  Py.float c' = inr receipts ->
  (0 < days)%Z -> 0 <= miles -> 0 <= receipts ->
  (days <= days')%Z -> miles <= miles' ->
  detect_outlier_case days miles receipts
  = detect_outlier_case days' miles' receipts ->
  exists amount amount',
    calculate_reimbursement a b c = inr amount
    /\ calculate_reimbursement a' b' c' = inr amount'
    /\ amount <= amount'.
Proof.
  intros Ha Hb Hc Ha' Hb' Hc' Hd Hm Hr Ld Lm Same.
  exists (Py.round (reimbursement_total days miles receipts) 2),
    (Py.round (reimbursement_total days' miles' receipts) 2).
  split; [now apply calculate_reimbursement_valid |].
  split; [apply calculate_reimbursement_valid; auto; [lia | lra] |].
  apply round_2_monotone.
  pose proof (days_in_Q _ _ Ld) as Lq.
  destruct (detect_cases days miles receipts)
    as [(_ & E) | [(_ & _ & E) | [(_ & _ & _ & E) | (_ & _ & _ & E)]]];
    pose proof E as E'; rewrite Same in E'.
  - rewrite (reimbursement_total_gaming _ _ _ E),
      (reimbursement_total_gaming _ _ _ E'). lra.
  - rewrite (reimbursement_total_heavy _ _ _ E),
      (reimbursement_total_heavy _ _ _ E'). lra.
  - rewrite (reimbursement_total_abuse _ _ _ E),
      (reimbursement_total_abuse _ _ _ E'). lra.
  - rewrite (reimbursement_total_normal _ _ _ E),
      (reimbursement_total_normal _ _ _ E').
    destruct (receipts >? 800); [| destruct (receipts >? 200)]; lra.
Qed.

(** X4: across the abuse threshold more miles pay less: a one-day trip with
    receipts above 1800 and between 1000 and 4000 miles (1000 excluded) is
    reimbursed strictly less than the same trip at exactly 1000 miles. *)
Theorem abuse_threshold_pays_less miles receipts :
  1800 < receipts -> 1000 < miles -> miles <= 4000 ->
  exists amount_at_1000 amount,
    calculate_reimbursement (Py.VInt 1) (Py.VFloat 1000) (Py.VFloat receipts)
    = inr amount_at_1000
    /\ calculate_reimbursement (Py.VInt 1) (Py.VFloat miles)
         (Py.VFloat receipts) = inr amount
    /\ amount < amount_at_1000.
Proof.
  intros Hr Lo Hi.
  exists (Py.round (reimbursement_total 1 1000 receipts) 2),
    (Py.round (reimbursement_total 1 miles receipts) 2).
  split; [apply calculate_reimbursement_valid; try reflexivity; lra |].
  split; [apply calculate_reimbursement_valid; try reflexivity; lra |].
  assert (Abuse : detect_outlier_case 1 miles receipts
                  = "abuse_detection"%string).
  { apply (detect_by_pattern 1 miles receipts).
    repeat split; lra. }
  assert (Normal : detect_outlier_case 1 1000 receipts = "normal"%string).
  { apply (detect_by_pattern 1 1000 receipts).
    repeat split; intros (? & ? & ?); lra. }
  pose proof (reimbursement_total_abuse _ _ _ Abuse) as Ta.
  pose proof (reimbursement_total_normal _ _ _ Normal) as Tn.
  rewrite (Qgtb_true receipts 800) in Tn by lra.
  assert (Band : calculate_receipt_component receipts
                 == 1000 * 0.998 + (receipts - 1000) * 0.3).
  { unfold calculate_receipt_component. cbv zeta.
    rewrite (Qgtb_true receipts 1000) by lra. reflexivity. }
  rewrite Band in Tn. change (inject_Z 1) with 1 in Ta, Tn.
  pose proof (round_2_near (reimbursement_total 1 miles receipts)) as Na.
  pose proof (round_2_near (reimbursement_total 1 1000 receipts)) as Nn.
  apply Qabs_Qle_condition in Na. apply Qabs_Qle_condition in Nn.
  lra.
Qed.
End WithinATag.

(** X5: the two receipt caps pay less than the normal formula would: an
    input tagged gaming_detection or heavy_cap totals less than
    100 + days*20 + miles*0.3 + the banded receipt component, which it would
    total as a normal trip; so does one tagged abuse_detection as long as
    miles < 15560 + 3.6 * receipts. *)
Theorem outlier_total_below_normal_formula days miles receipts :
  let normal_formula :=
    inject_Z (100 + days * 20) + miles * 0.3
      + calculate_receipt_component receipts in
  (detect_outlier_case days miles receipts = "gaming_detection"%string ->
   reimbursement_total days miles receipts < normal_formula)
  /\ (detect_outlier_case days miles receipts = "heavy_cap"%string ->
      reimbursement_total days miles receipts < normal_formula)
  /\ (detect_outlier_case days miles receipts = "abuse_detection"%string ->
      (reimbursement_total days miles receipts < normal_formula
       <-> miles < 15560 + 3.6 * receipts)).
Proof.
  cbv zeta.
  assert (Band : 1000 < receipts ->
                 calculate_receipt_component receipts
                 == 1000 * 0.998 + (receipts - 1000) * 0.3).
  { intros R. unfold calculate_receipt_component. cbv zeta.
    rewrite (Qgtb_true receipts 1000) by lra. reflexivity. }
  pose proof (detect_by_pattern days miles receipts)
    as (G & Hv & A & _).
  split; [| split]; intros E.
  - rewrite (reimbursement_total_gaming _ _ _ E).
    apply G in E. destruct E as (R & D & M).
    rewrite Band by lra. in_Q. apply days_in_Q in D.
    change (inject_Z 4) with 4 in D. lra.
  - rewrite (reimbursement_total_heavy _ _ _ E).
    apply Hv in E. destruct E as ((R & D & M) & _).
    rewrite Band by lra. in_Q. apply days_in_Q in D.
    change (inject_Z 5) with 5 in D. lra.
  - rewrite (reimbursement_total_abuse _ _ _ E).
    apply A in E. destruct E as (-> & M & R).
    rewrite Band by lra. in_Q. change (inject_Z 1) with 1. split; lra.
Qed.

Lemma outlier_total_below_normal_formula_witness :
  reimbursement_total 3 50 2350
  < inject_Z (100 + 3 * 20) + 50 * 0.3 + calculate_receipt_component 2350.
Proof.
  apply (proj1 (outlier_total_below_normal_formula 3 50 2350)).
  reflexivity.
Defined.

(** X6: the ratios of the docstring are caps: on receipts >= 0 the banded
    component is at most 3.610 times the receipts, at most 2.258 times
    above 200, at most 1.610 times above 500 and at most 0.998 times above
    1000; it is never below 0.3 times the receipts. *)
Theorem receipt_component_ratio_caps receipts :
  0 <= receipts ->
  0.3 * receipts <= calculate_receipt_component receipts
  /\ calculate_receipt_component receipts <= 3.610 * receipts
  /\ (200 < receipts ->
      calculate_receipt_component receipts <= 2.258 * receipts)
  /\ (500 < receipts ->
      calculate_receipt_component receipts <= 1.610 * receipts)
  /\ (1000 < receipts ->
      calculate_receipt_component receipts <= 0.998 * receipts).
Proof.
  intros Hr. unfold calculate_receipt_component. cbv zeta.
  case_tests; repeat split; intros; lra.
Qed.

Lemma receipt_component_ratio_caps_witness :
  calculate_receipt_component 750 <= 1.610 * 750.
Proof.
  apply (receipt_component_ratio_caps 750); lra.
Defined.

Lemma more_travel_same_tag_pays_no_less_witness :
  let conv := Py.decimal_literals in
  exists amount amount',
    calculate_reimbursement (Py.VStr "2") (Py.VStr "300") (Py.VStr "900")
    = inr amount
    /\ calculate_reimbursement (Py.VStr "7") (Py.VStr "450.5") (Py.VStr "900")
       = inr amount'
    /\ amount <= amount'.
Proof.
  intros conv.
  apply (@more_travel_same_tag_pays_no_less conv
           (Py.VStr "2") (Py.VStr "300") (Py.VStr "900")
           (Py.VStr "7") (Py.VStr "450.5") (Py.VStr "900")
           2%Z 7%Z 300 450.5 900);
    try reflexivity; try lia; lra.
Defined.

Lemma abuse_threshold_pays_less_witness :
  let conv := Py.decimal_literals in
  exists amount_at_1000 amount,
    calculate_reimbursement (Py.VInt 1) (Py.VFloat 1000) (Py.VFloat 1809)
    = inr amount_at_1000
    /\ calculate_reimbursement (Py.VInt 1) (Py.VFloat 1082) (Py.VFloat 1809)
       = inr amount
    /\ amount < amount_at_1000.
Proof.
  intros conv.
  apply (@abuse_threshold_pays_less conv 1082 1809); lra.
Defined.

(** ** The command line *)

Section CommandLine.
Context `{Cli.Runtime}.
#[local] Existing Instance Cli.runtime_conv.


Lemma cli_function_rejected a b c days miles receipts :
  Py.int a = inr days -> Py.float b = inr miles ->
  Py.float c = inr receipts ->
  (days <= 0)%Z \/ miles < 0 \/ receipts < 0 ->
  Cli.calculate_reimbursement a b c
  = ([Cli.error_line "Invalid input values"], inr 0.0).
Proof.
  intros Ha Hb Hc Bad.
  unfold Cli.calculate_reimbursement, Cli.calculate_reimbursement_try,
    Cli.int_or_text, Cli.float_or_text.
  rewrite Ha, Hb, Hc. cbn [bind ret Monad_either].
  destruct (Z.leb_spec days 0), (Qltb_spec miles 0), (Qltb_spec receipts 0);
    try reflexivity.
  exfalso. destruct Bad as [B | [B | B]]; [lia | lra | lra].
Qed.

Lemma cli_function_uncoerced a b c :
  (exists e, Py.int a = inl e)
  \/ (exists e, Py.float b = inl e)
  \/ (exists e, Py.float c = inl e) ->
  exists text, Cli.calculate_reimbursement a b c
               = ([Cli.error_line text], inr 0.0).
Proof.
  intros Bad.
  unfold Cli.calculate_reimbursement, Cli.calculate_reimbursement_try,
    Cli.int_or_text, Cli.float_or_text.
  destruct (Py.int a) as [ea | days] eqn:Ha.
  { exists (Cli.int_error a).
    destruct (int_raises a ea Ha) as [-> | ->]; reflexivity. }
  destruct (Py.float b) as [eb | miles] eqn:Hb.
  { exists (Cli.float_error b).
    destruct (float_raises b eb Hb) as [-> | ->]; reflexivity. }
  destruct (Py.float c) as [ec | receipts] eqn:Hc.
  { exists (Cli.float_error c).
    destruct (float_raises c ec Hc) as [-> | ->]; reflexivity. }
  destruct Bad as [(e & E) | [(e & E) | (e & E)]]; discriminate.
Qed.

Lemma cli_function_invalid a b c :
  invalid_input a b c ->
  exists text, Cli.calculate_reimbursement a b c
               = ([Cli.error_line text], inr 0.0).
Proof.
  intros [B | [B | [B | (d & m & r & Ea & Eb & Ec & B)]]].
  - apply cli_function_uncoerced. now left.
  - apply cli_function_uncoerced. right. now left.
  - apply cli_function_uncoerced. right. now right.
  - exists "Invalid input values"%string.
    now apply (cli_function_rejected a b c d m r).
Qed.

Lemma main_three_arguments script days miles receipts :
  Cli.main [script; days; miles; receipts]
  = match Cli.calculate_reimbursement
            (Py.VStr days) (Py.VStr miles) (Py.VStr receipts) with
    | (out, inr result) => (out ++ [Cli.float_repr result], 0%Z)
    | (out, inl (_, text)) => (out ++ [Cli.error_line text], 1%Z)
    end.
Proof. reflexivity. Qed.

(** X7: the command line and bad input.  With an argument count other than
    three it prints the usage line alone and exits with status 1.  With
    three arguments that are invalid it prints an error line, then the
    amount 0.0, and exits with status 0; the error line is
    [Error: Invalid input values] when the three arguments are numbers out
    of range. *)
Theorem command_line_on_bad_input :
  (forall argv,
      length argv <> 4%nat -> Cli.main argv = ([Cli.usage], 1%Z))
  /\ (forall script days miles receipts,
      invalid_input (Py.VStr days) (Py.VStr miles) (Py.VStr receipts) ->
      exists text,
        Cli.main [script; days; miles; receipts]
        = ([Cli.error_line text; Cli.float_repr 0.0], 0%Z))
  /\ (forall script days miles receipts d m r,
      Py.int (Py.VStr days) = inr d -> Py.float (Py.VStr miles) = inr m ->
      Py.float (Py.VStr receipts) = inr r ->
      (d <= 0)%Z \/ m < 0 \/ r < 0 ->
      Cli.main [script; days; miles; receipts]
      = ([Cli.error_line "Invalid input values"; Cli.float_repr 0.0], 0%Z)).
Proof.
  split; [| split].
  - intros argv L. unfold Cli.main.
    destruct (Nat.eqb_spec (length argv) 4); [contradiction | reflexivity].
  - intros script days miles receipts Bad.
    destruct (cli_function_invalid _ _ _ Bad) as (text & E).
    exists text. rewrite main_three_arguments, E. reflexivity.
  - intros script days miles receipts d m r Hd Hm Hr Bad.
    rewrite main_three_arguments,
      (cli_function_rejected _ _ _ d m r Hd Hm Hr Bad).
    reflexivity.
Qed.


End CommandLine.

Lemma command_line_on_bad_input_witness :
  @Cli.main Cli.sample_runtime ["calculate_reimbursement.py"; "0"; "12.5"; "7"]%string
  = (["Error: Invalid input values"; "0.0"]%string, 0%Z)
  /\ @Cli.main Cli.sample_runtime ["calculate_reimbursement.py"; "3"; "12.5"]%string
     = ([Cli.usage], 1%Z).
Proof.
  split.
  - apply (proj2 (proj2 (@command_line_on_bad_input Cli.sample_runtime))
             "calculate_reimbursement.py" "0" "12.5" "7" 0%Z 12.5 7)%string;
      try reflexivity.
    left. lia.
  - apply (proj1 (@command_line_on_bad_input Cli.sample_runtime)).
    discriminate.
Defined.


(** ** [quick_eval] *)

Lemma rstrip_head (c : ascii) (s : string) :
  Cli.is_space c = false ->
  Cli.rstrip (String c s) = String c (Cli.rstrip s).
Proof.
  intros N. cbn [Cli.rstrip]. rewrite N.
  destruct (Cli.rstrip s); reflexivity.
Qed.

Lemma strip_head (c : ascii) (s : string) :
  Cli.is_space c = false ->
  Cli.strip (String c s) = String c (Cli.rstrip s).
Proof.
  intros N. unfold Cli.strip. cbn [Cli.lstrip]. rewrite N.
  now apply rstrip_head.
Qed.

Lemma sum_from (errors : list Q) (start : Q) :
  fold_left Qplus errors start == start + QuickEval.sum errors.
Proof.
  unfold QuickEval.sum. revert start.
  induction errors as [| e rest IH]; intros start; cbn [fold_left].
  - ring.
  - rewrite (IH (start + e)), (IH (0 + e)). ring.
Qed.

Lemma sum_cons (e : Q) (rest : list Q) :
  QuickEval.sum (e :: rest) == e + QuickEval.sum rest.
Proof.
  unfold QuickEval.sum at 1. cbn [fold_left]. rewrite sum_from. ring.
Qed.

Lemma sum_nonneg (errors : list Q) :
  Forall (fun e => 0 <= e) errors -> 0 <= QuickEval.sum errors.
Proof.
  induction 1 as [| e rest He _ IH].
  - unfold QuickEval.sum. cbn. lra.
  - rewrite sum_cons. lra.
Qed.

Lemma sum_bounds (errors : list Q) (bound : Q) :
  Forall (fun e => 0 <= e /\ e <= bound) errors ->
  QuickEval.sum errors <= inject_Z (Z.of_nat (length errors)) * bound
  /\ Forall (fun e => e <= QuickEval.sum errors) errors.
Proof.
  induction 1 as [| e rest (He0 & Heb) Hrest (IHsum & IHeach)].
  - split; [| constructor].
    unfold QuickEval.sum. cbn [fold_left length Z.of_nat].
    change (inject_Z 0) with 0. lra.
  - assert (Pos : 0 <= QuickEval.sum rest).
    { apply sum_nonneg. eapply Forall_impl; [| exact Hrest].
      cbn. intros ? (? & _). assumption. }
    pose proof (sum_cons e rest) as S.
    split.
    + cbn [length]. rewrite Nat2Z.inj_succ.
      unfold Z.succ. rewrite inject_Z_plus.
      change (inject_Z 1) with 1. lra.
    + constructor; [lra |].
      eapply Forall_impl; [| exact IHeach].
      cbv beta. intros x Hx. lra.
Qed.

(** [max] is an element of the list and bounds every element. *)
Lemma maximum_spec (rest : list Q) (first : Q) :
  In (QuickEval.maximum first rest) (first :: rest)
  /\ Forall (fun e => e <= QuickEval.maximum first rest) (first :: rest).
Proof.
  unfold QuickEval.maximum. revert first.
  induction rest as [| e rest IH]; intros first; cbn [fold_left].
  - split; [now left | constructor; [lra | constructor]].
  - destruct (Qgtb_spec e first) as [G | L].
    + destruct (IH e) as (I & B). split.
      * destruct I as [<- | I]; [right; now left | right; now right].
      * inversion B as [| ? ? Be Brest]; subst.
        constructor; [lra | constructor; assumption].
    + destruct (IH first) as (I & B). split.
      * destruct I as [<- | I]; [now left | right; now right].
      * inversion B as [| ? ? Bf Brest]; subst.
        constructor; [assumption | constructor; [lra | assumption]].
Qed.

Lemma Forall_sample {A : Type} (P : A -> Prop) (n : nat) (l : list A) :
  Forall P l -> Forall P (firstn n l).
Proof.
  intros All. revert n.
  induction All as [| x rest Hx _ IH]; intros [| n]; cbn [firstn];
    constructor; auto.
Qed.

Section QuickEvalFacts.
Context `{Cli.Runtime}.
#[local] Existing Instance Cli.runtime_conv.

Lemma errors_nonneg (sample_cases : list QuickEval.case) :
  Forall (fun e => 0 <= e) (QuickEval.errors_of sample_cases).
Proof.
  induction sample_cases as [| c rest IH]; cbn [QuickEval.errors_of].
  - constructor.
  - unfold QuickEval.run_case.
    destruct (Cli.main _) as [stdout returncode].
    destruct (returncode =? 0)%Z; [| exact IH].
    destruct (Py.float _) as [e | predicted]; [exact IH |].
    constructor; [apply Qabs_nonneg | exact IH].
Qed.

Lemma errors_length (sample_cases : list QuickEval.case) :
  (length (QuickEval.errors_of sample_cases) <= length sample_cases)%nat.
Proof.
  induction sample_cases as [| c rest IH]; cbn [QuickEval.errors_of length].
  - lia.
  - destruct (QuickEval.run_case c); cbn [length]; lia.
Qed.

Lemma errors_app (l1 l2 : list QuickEval.case) :
  QuickEval.errors_of (l1 ++ l2)
  = (QuickEval.errors_of l1 ++ QuickEval.errors_of l2)%list.
Proof.
  induction l1 as [| c rest IH]; cbn [QuickEval.errors_of app].
  - reflexivity.
  - destruct (QuickEval.run_case c); rewrite IH; reflexivity.
Qed.

(** A case with invalid inputs: the subprocess prints two lines, which do
    not read back as a float. *)
Lemma run_case_invalid (c : QuickEval.case) :
  (forall s, Py.float_of_str (String "E" s) = None) ->
  invalid_input (Py.VStr (QuickEval.trip_duration_days c))
    (Py.VStr (QuickEval.miles_traveled c))
    (Py.VStr (QuickEval.total_receipts_amount c)) ->
  QuickEval.run_case c = QuickEval.ExceptionInCase Py.ValueError.
Proof.
  intros Reject Bad. unfold QuickEval.run_case.
  destruct (cli_function_invalid _ _ _ Bad) as (text & E).
  rewrite main_three_arguments, E. cbn [app Z.eqb].
  unfold Cli.error_line. cbn [Cli.text_of String.append].
  rewrite strip_head by reflexivity.
  cbn [Py.float]. rewrite Reject. reflexivity.
Qed.

(** X9: [quick_eval] leaves invalid cases out of its statistics.  Python's
    [float] accepts no string that starts with [E]; so a case whose inputs
    are invalid, for which the subprocess prints an error line before 0.0
    and exits with status 0, raises [ValueError] when its output is read
    back and adds nothing to [errors]; when every case is invalid the
    report is [No successful cases!]. *)
Theorem quick_eval_skips_invalid_cases :
  (forall s, Py.float_of_str (String "E" s) = None) ->
  let invalid c :=
    invalid_input (Py.VStr (QuickEval.trip_duration_days c))
      (Py.VStr (QuickEval.miles_traveled c))
      (Py.VStr (QuickEval.total_receipts_amount c)) in
  (forall c, invalid c ->
      QuickEval.run_case c = QuickEval.ExceptionInCase Py.ValueError)
  /\ (forall before c after, invalid c ->
      QuickEval.errors_of (before ++ c :: after)
      = QuickEval.errors_of (before ++ after))
  /\ (forall cases, Forall invalid cases ->
      QuickEval.quick_eval cases = QuickEval.NoSuccessfulCases).
Proof.
  intros Reject invalid. split; [| split].
  - intros c Bad. now apply run_case_invalid.
  - intros before c after Bad. rewrite !errors_app.
    cbn [QuickEval.errors_of]. now rewrite (run_case_invalid c Reject Bad).
  - intros cases All. unfold QuickEval.quick_eval. cbv zeta.
    assert (E : QuickEval.errors_of (firstn 100 cases) = []).
    { assert (Sample : Forall invalid (firstn 100 cases))
        by now apply Forall_sample.
      induction Sample as [| c rest Bad _ IH]; [reflexivity |].
      cbn [QuickEval.errors_of].
      now rewrite (run_case_invalid c Reject Bad). }
    rewrite E. reflexivity.
Qed.


(** X11: the statistics of [quick_eval].  A summary counts between 1 and
    100 cases and no more than there are; its errors are not negative, so
    0 <= average <= maximum <= score, the score is the average times the
    count, and the projected score is ten times the score whatever the
    count. *)
Theorem quick_eval_summary cases count avg_error max_error score projected :
  QuickEval.quick_eval cases
  = QuickEval.Summary count avg_error max_error score projected ->
  (1 <= count <= 100)%nat /\ (count <= length cases)%nat
  /\ 0 <= avg_error /\ avg_error <= max_error /\ max_error <= score
  /\ score == avg_error * inject_Z (Z.of_nat count)
  /\ projected == 10 * score.
Proof.
  unfold QuickEval.quick_eval. cbv zeta.
  pose proof (errors_nonneg (firstn 100 cases)) as Pos.
  pose proof (errors_length (firstn 100 cases)) as Len.
  pose proof (firstn_le_length 100 cases) as Cap.
  rewrite length_firstn in Len.
  destruct (QuickEval.errors_of (firstn 100 cases)) as [| first rest] eqn:E;
    [discriminate |].
  intros [= <- <- <- <- <-].
  set (errors := first :: rest) in *.
  destruct (maximum_spec rest first) as (MaxIn & MaxBound).
  fold errors in MaxIn, MaxBound.
  set (mx := QuickEval.maximum first rest) in *.
  assert (Both : Forall (fun e => 0 <= e /\ e <= mx) errors).
  { apply Forall_forall. intros e I. split.
    - exact (proj1 (Forall_forall _ _) Pos e I).
    - exact (proj1 (Forall_forall _ _) MaxBound e I). }
  destruct (sum_bounds errors mx Both) as (SumMax & Each).
  assert (MaxSum : mx <= QuickEval.sum errors)
    by exact (proj1 (Forall_forall _ _) Each mx MaxIn).
  assert (N : 1 <= inject_Z (Z.of_nat (length errors))).
  { change 1 with (inject_Z 1). rewrite <- Zle_Qle.
    subst errors. cbn [length]. lia. }
  assert (Mean : QuickEval.mean errors * inject_Z (Z.of_nat (length errors))
                 == QuickEval.sum errors).
  { unfold QuickEval.mean. field. lra. }
  pose proof (sum_nonneg errors Pos) as SumPos.
  split; [subst errors; cbn [length] in *; lia |].
  split; [subst errors; cbn [length] in *; lia |].
  split; [| split; [| split; [exact MaxSum | split]]].
  - unfold QuickEval.mean. apply Qle_shift_div_l; lra.
  - unfold QuickEval.mean. apply Qle_shift_div_r; lra.
  - symmetry. exact Mean.
  - ring.
Qed.
End QuickEvalFacts.

(** The sample runtime reads no string that starts with [E]. *)
Lemma sample_runtime_rejects_E (s : string) :
  @Py.float_of_str (@Cli.runtime_conv Cli.sample_runtime) (String "E" s)
  = None.
Proof.
  cbn [Py.float_of_str Cli.runtime_conv Cli.sample_runtime
       Py.decimal_literals Py.signed].
  unfold Py.unsigned_decimal_of. cbn [Py.split_dot].
  destruct (Py.split_dot s) as [whole [fraction |]]; reflexivity.
Qed.

Lemma quick_eval_skips_invalid_cases_witness :
  @QuickEval.quick_eval Cli.sample_runtime
    [QuickEval.Build_case "0" "10" "10" 100;
     QuickEval.Build_case "3" "abc" "1" 5]%string
  = QuickEval.NoSuccessfulCases.
Proof.
  apply (proj2 (proj2 (@quick_eval_skips_invalid_cases Cli.sample_runtime
                         sample_runtime_rejects_E))).
  constructor; [| constructor; [| constructor]].
  - right. right. right. exists 0%Z, 10, 10.
    split; [reflexivity |]. split; [reflexivity |]. split; [reflexivity |].
    left. lia.
  - right. left. exists Py.ValueError. reflexivity.
Defined.


Lemma quick_eval_summary_witness :
  (1 <= 2 <= 100)%nat /\ (2 <= 3)%nat
  /\ 0 <= 34380 # 2000 /\ 34380 # 2000 <= 24.38 /\ 24.38 <= 34.380
  /\ 34.380 == (34380 # 2000) * inject_Z (Z.of_nat 2)
  /\ 343.800 == 10 * 34.380.
Proof.
  apply (@quick_eval_summary Cli.sample_runtime
           [QuickEval.Build_case "4" "69" "2321" 322;
            QuickEval.Build_case "0" "69" "2321" 322;
            QuickEval.Build_case "1" "0" "0" 60]%string
           2%nat (34380 # 2000) 24.38 34.380 343.800).
  vm_compute. reflexivity.
Defined.

(** ** The loop of [compare_with_our_implementation] *)

Section ValidateMlFacts.
Context `{Py.StrConv}.


End ValidateMlFacts.


(** ** [create_features] *)




(** ** [test_simple_formulas] *)

Section BestFormula.
Variable df : list FreshReverseEngineering.row.
Hypothesis some_row : df <> [].


End BestFormula.



(** ** [scripts/validate_setup.py] *)

Section ValidateSetupFacts.
Import ValidateSetup.
Local Open Scope string_scope.
Local Open Scope Q_scope.

Lemma counted_add_pass message r : counted r -> counted (add_pass message r).
Proof.
  unfold counted. cbn [add_pass passed warnings errors messages].
  rewrite length_app. cbn [length]. lia.
Qed.

Lemma counted_add_warning message r :
  counted r -> counted (add_warning message r).
Proof.
  unfold counted. cbn [add_warning passed warnings errors messages].
  rewrite length_app. cbn [length]. lia.
Qed.

Lemma counted_add_error message r :
  counted r -> counted (add_error message r).
Proof.
  unfold counted. cbn [add_error passed warnings errors messages].
  rewrite length_app. cbn [length]. lia.
Qed.

Lemma counted_fold {A} (step : ValidationResult -> A -> ValidationResult)
    (items : list A) :
  (forall r item, counted r -> counted (step r item)) ->
  forall r, counted r -> counted (fold_left step items r).
Proof.
  intros Step. induction items as [| item rest IH]; intros r C; [exact C |].
  cbn [fold_left]. apply IH, Step, C.
Qed.

Lemma counted_check_file_content filename content r :
  counted r -> counted (_check_file_content filename content r).
Proof.
  intros C. unfold _check_file_content.
  repeat match goal with
         | |- counted (match ?l with [] => _ | _ :: _ => _ end) =>
             destruct l
         | |- counted (if ?b then _ else _) => destruct b
         | |- counted (add_pass _ _) => apply counted_add_pass
         | |- counted (add_warning _ _) => apply counted_add_warning
         end; exact C.
Qed.

Lemma counted_validate_directory_structure fs r :
  counted r -> counted (validate_directory_structure fs r).
Proof.
  intros C. unfold validate_directory_structure.
  destruct (negb (rules_dir_exists fs)); [now apply counted_add_error |].
  assert (Files :
    counted
      (fold_left
         (fun result '(filename, description) =>
            if rule_file_exists fs filename then
              add_pass ("Found " ++ filename ++ " (" ++ description ++ ")")
                       result
            else
              add_error ("Missing " ++ filename ++ " (" ++ description ++ ")")
                        result)
         required_files
         (add_pass ("Rules directory exists: " ++ rules_dir fs) r))).
  { apply counted_fold; [| now apply counted_add_pass].
    intros r0 [filename description] C0.
    destruct (rule_file_exists fs filename);
      [now apply counted_add_pass | now apply counted_add_error]. }
  destruct (legacy_file_exists fs); [now apply counted_add_warning |].
  exact Files.
Qed.

Lemma counted_check_keywords filename expected content r :
  counted r -> counted (check_keywords filename expected content r).
Proof.
  intros C. unfold check_keywords.
  match goal with |- counted (if ?b then _ else _) => destruct b end;
    [now apply counted_add_pass | now apply counted_add_warning].
Qed.

(** X16: the counters of a [ValidationResult] count its messages.  A new
    result has no message and three zero counters, and every operation of
    the validator keeps [passed + warnings + errors] equal to the number of
    messages. *)
Theorem counters_count_messages r :
  counted r ->
  counted new
  /\ (forall message,
        counted (add_pass message r) /\ counted (add_warning message r)
        /\ counted (add_error message r))
  /\ (forall fs, counted (validate_directory_structure fs r))
  /\ (forall filename content,
        counted (_check_file_content filename content r))
  /\ (forall filename expected content,
        counted (check_keywords filename expected content r)).
Proof.
  intros C. split; [reflexivity |].
  split; [| split; [| split]].
  - intros message. split; [| split].
    + now apply counted_add_pass.
    + now apply counted_add_warning.
    + now apply counted_add_error.
  - intros fs. now apply counted_validate_directory_structure.
  - intros filename content. now apply counted_check_file_content.
  - intros filename expected content. now apply counted_check_keywords.
Qed.

Lemma counters_count_messages_witness :
  counted (_check_file_content "020-task_list.mdc" "# Tasks"
             (add_error "Missing 010-cursor_general_rules.mdc" new)).
Proof.
  apply (counters_count_messages
           (add_error "Missing 010-cursor_general_rules.mdc" new)).
  reflexivity.
Defined.

(** The errors added by the loop over the required files: one for each
    file that is missing. *)
Lemma directory_loop_errors fs (files : list (string * string)) r :
  errors
    (fold_left
       (fun result '(filename, description) =>
          if rule_file_exists fs filename then
            add_pass ("Found " ++ filename ++ " (" ++ description ++ ")")
                     result
          else
            add_error ("Missing " ++ filename ++ " (" ++ description ++ ")")
                      result)
       files r)
  = (errors r
     + Z.of_nat
         (length (filter (fun file => negb (rule_file_exists fs (fst file)))
                         files)))%Z.
Proof.
  revert r. induction files as [| [filename description] rest IH]; intros r.
  - cbn. lia.
  - cbn [fold_left filter fst]. rewrite IH.
    destruct (rule_file_exists fs filename); cbn [negb length errors add_pass
                                                  add_error]; lia.
Qed.

Lemma filter_none {A} (f : A -> bool) (l : list A) :
  length (filter f l) = 0%nat <-> Forall (fun x => f x = false) l.
Proof.
  induction l as [| x rest IH]; [now split; [constructor |] |].
  cbn [filter]. destruct (f x) eqn:E.
  - split; [discriminate |]. intros F. inversion F. congruence.
  - rewrite IH. split; [now constructor |]. intros F. now inversion F.
Qed.

Lemma filter_all {A} (f : A -> bool) (l : list A) :
  length (filter f l) = length l <-> Forall (fun x => f x = true) l.
Proof.
  induction l as [| x rest IH]; [now split; [constructor |] |].
  cbn [filter]. pose proof (filter_length_le f rest) as Le.
  destruct (f x) eqn:E; cbn [length].
  - split.
    + intros L. constructor; [exact E |]. apply IH. lia.
    + intros F. inversion F as [| ? ? _ Rest]. apply IH in Rest. lia.
  - split; [lia |]. intros F. inversion F. congruence.
Qed.

(** X17: [validate_directory_structure] adds no error exactly when the
    rules directory and all thirteen required files exist; without the
    directory it adds one error and nothing else, and otherwise one error
    for each required file that is missing. *)
Theorem directory_structure_errors fs r :
  (errors (validate_directory_structure fs r) = errors r
   <-> rules_dir_exists fs = true
       /\ Forall (fun file => rule_file_exists fs (fst file) = true)
                 required_files)
  /\ (rules_dir_exists fs = false ->
      length (messages (validate_directory_structure fs r))
      = S (length (messages r))
      /\ errors (validate_directory_structure fs r) = (errors r + 1)%Z)
  /\ (rules_dir_exists fs = true ->
      errors (validate_directory_structure fs r)
      = (errors r
         + Z.of_nat
             (length
                (filter (fun file => negb (rule_file_exists fs (fst file)))
                        required_files)))%Z).
Proof.
  assert (Present :
    rules_dir_exists fs = true ->
    errors (validate_directory_structure fs r)
    = (errors r
       + Z.of_nat
           (length
              (filter (fun file => negb (rule_file_exists fs (fst file)))
                      required_files)))%Z).
  { intros Dir. unfold validate_directory_structure. rewrite Dir.
    cbn [negb].
    destruct (legacy_file_exists fs); cbn [errors add_warning];
      now rewrite directory_loop_errors. }
  assert (Absent :
    rules_dir_exists fs = false ->
    length (messages (validate_directory_structure fs r))
    = S (length (messages r))
    /\ errors (validate_directory_structure fs r) = (errors r + 1)%Z).
  { intros Dir. unfold validate_directory_structure. rewrite Dir.
    cbn [negb add_error messages errors]. rewrite length_app.
    cbn [length]. split; [lia | reflexivity]. }
  split; [| split; assumption].
  destruct (rules_dir_exists fs) eqn:Dir.
  - rewrite (Present eq_refl). split.
    + intros Same. split; [reflexivity |].
      assert (None :
        length (filter (fun file => negb (rule_file_exists fs (fst file)))
                       required_files) = 0%nat) by lia.
      apply filter_none in None.
      eapply Forall_impl; [| exact None]. cbv beta. intros file Neg.
      now destruct (rule_file_exists fs (fst file)).
    + intros [_ All].
      assert (None :
        length (filter (fun file => negb (rule_file_exists fs (fst file)))
                       required_files) = 0%nat).
      { apply filter_none. eapply Forall_impl; [| exact All]. cbv beta.
        intros file Yes. now rewrite Yes. }
      lia.
  - destruct (Absent eq_refl) as [_ One]. rewrite One.
    split; [lia | intros [No _]; discriminate].
Qed.

(** X18: [_check_file_content] never records an error: it adds two or
    three messages, each one a pass or a warning, and any earlier messages
    stay in front. *)
Theorem content_check_never_errors filename content r :
  let r' := _check_file_content filename content r in
  errors r' = errors r
  /\ exists added,
      messages r' = (messages r ++ added)%list
      /\ (2 <= length added <= 3)%nat
      /\ Forall (fun message => fst message <> Red_cross) added
      /\ (passed r' - passed r + (warnings r' - warnings r)
          = Z.of_nat (length added))%Z.
Proof.
  cbv zeta. unfold _check_file_content.
  destruct (filter (fun placeholder => contains placeholder content)
                   placeholders);
    destruct (negb (startswith "---" content)
              && contains "description:" (slice_to 500 content));
    destruct (startswith "#" content);
    destruct (filter (fun ref_pattern => contains ref_pattern content)
                     (map fst cross_references));
    cbn [add_pass add_warning errors messages passed warnings];
    (split; [reflexivity |]);
    rewrite <- ?app_assoc; cbn [app];
    eexists; (split; [reflexivity |]);
    (split; [cbn [length]; lia |]);
    (split; [repeat constructor; discriminate | cbn [length]; lia]).
Qed.

Lemma front_matter_not_heading content :
  startswith "---" content = true -> startswith "#" content = false.
Proof.
  unfold startswith. destruct content as [| c rest]; [discriminate |].
  cbn [String.prefix].
  destruct (Ascii.ascii_dec "-" c) as [<- |]; [| discriminate].
  intros _. reflexivity.
Qed.

(** X19: a file whose text opens with the three dashes of a front matter
    gets the warning of an unusual file format, whether or not a
    description follows: the test for a proper MDC format asks that the
    text does not start with the dashes. *)
Theorem front_matter_reported_unusual filename content r :
  startswith "---" content = true ->
  let r' := _check_file_content filename content r in
  In (Yellow_warning, filename ++ ": Unusual file format detected")
     (messages r')
  /\ (warnings r < warnings r')%Z.
Proof.
  intros Dashes. cbv zeta. unfold _check_file_content.
  rewrite Dashes, (front_matter_not_heading _ Dashes). cbn [negb andb].
  destruct (filter (fun placeholder => contains placeholder content)
                   placeholders);
    destruct (filter (fun ref_pattern => contains ref_pattern content)
                     (map fst cross_references));
    cbn [add_pass add_warning messages warnings];
    (split; [| lia]);
    rewrite ?in_app_iff; cbn [In]; tauto.
Qed.

Lemma front_matter_reported_unusual_witness :
  let r' :=
    _check_file_content "020-task_list.mdc" "---description: tasks" new in
  In (Yellow_warning, "020-task_list.mdc: Unusual file format detected")
     (messages r')
  /\ (warnings new < warnings r')%Z.
Proof.
  apply (front_matter_reported_unusual
           "020-task_list.mdc" "---description: tasks" new).
  reflexivity.
Defined.

Lemma count_checks test (items : list string) total_checks passed_checks :
  fold_left (count_check test) items (total_checks, passed_checks)
  = ((total_checks + Z.of_nat (length items))%Z,
     (passed_checks + Z.of_nat (length (filter test items)))%Z).
Proof.
  revert total_checks passed_checks.
  induction items as [| item rest IH]; intros total_checks passed_checks.
  - cbn. f_equal; lia.
  - cbn [fold_left count_check filter]. rewrite IH.
    destruct (test item); cbn [length]; f_equal; lia.
Qed.

(** The score in terms of the number of checks that pass, out of the
    seven placeholders and the five patterns. *)
Lemma score_count `{Re} content :
  _calculate_customization_score content
  == inject_Z
       (Z.of_nat
          (length
             (filter (fun placeholder => negb (contains placeholder content))
                     placeholders))
        + Z.of_nat
            (length
               (filter (fun pattern => search pattern content)
                       project_indicators)))
     / 12 * 100.
Proof.
  unfold _calculate_customization_score. rewrite !count_checks.
  change (Z.of_nat (length placeholders)) with 7%Z.
  change (Z.of_nat (length project_indicators)) with 5%Z.
  change (0 + 7 + 5 >? 0)%Z with true. cbv iota.
  change (inject_Z (0 + 7 + 5)) with 12.
  rewrite Z.add_0_l. reflexivity.
Qed.

Lemma twelfths (x : Q) : x / 12 * 100 == x * (100 # 12).
Proof. field. Qed.

(** X20: the customization score is a number of twelfths of 100, between
    0 and 100: seven checks for the placeholders and five for the
    patterns, so that the branch that returns 0 for no check is never
    taken.  It is 100 exactly when no placeholder is left in the text and
    every pattern is found; then [_check_file_content] records the
    placeholders as customized. *)
Theorem customization_score_in_twelfths `{Re} content :
  let score := _calculate_customization_score content in
  (exists passed_checks : Z,
      (0 <= passed_checks <= 12)%Z
      /\ score == inject_Z passed_checks / 12 * 100)
  /\ 0 <= score <= 100
  /\ (score == 100
      <-> Forall (fun placeholder => contains placeholder content = false)
                 placeholders
          /\ Forall (fun pattern => search pattern content = true)
                    project_indicators)
  /\ (score == 100 ->
      forall filename r,
        In (Green_check, filename ++ ": Placeholders appear to be customized")
           (messages (_check_file_content filename content r))).
Proof.
  cbv zeta. pose proof (score_count content) as Score.
  set (kept := filter (fun placeholder => negb (contains placeholder content))
                      placeholders) in *.
  set (found := filter (fun pattern => search pattern content)
                       project_indicators) in *.
  assert (Kept : (length kept <= 7)%nat)
    by exact (filter_length_le _ placeholders).
  assert (Found : (length found <= 5)%nat)
    by exact (filter_length_le _ project_indicators).
  set (k := (Z.of_nat (length kept) + Z.of_nat (length found))%Z) in *.
  assert (Range : (0 <= k <= 12)%Z) by (unfold k; lia).
  assert (Ek : k = (Z.of_nat (length kept) + Z.of_nat (length found))%Z)
    by reflexivity.
  clearbody k. remember (inject_Z k) as x eqn:Ex.
  pose proof Score as Twelfths. rewrite twelfths in Twelfths.
  assert (RangeQ : 0 <= inject_Z k <= 12).
  { change 0 with (inject_Z 0). change 12 with (inject_Z 12).
    rewrite <- !Zle_Qle. exact Range. }
  assert (Full :
    _calculate_customization_score content == 100
    <-> Forall (fun placeholder => contains placeholder content = false)
               placeholders
        /\ Forall (fun pattern => search pattern content = true)
                  project_indicators).
  { rewrite Twelfths. split.
    - intros Hundred.
      assert (Twelve : x == inject_Z 12)
        by (change (inject_Z 12) with 12; lra).
      rewrite Ex in Twelve.
      apply (proj1 (inject_Z_injective _ _)) in Twelve.
      assert (K : length kept = length placeholders)
        by (change (length placeholders) with 7%nat; lia).
      assert (F : length found = length project_indicators)
        by (change (length project_indicators) with 5%nat; lia).
      apply filter_all in K. apply filter_all in F.
      split; [| exact F].
      eapply Forall_impl; [| exact K]. cbv beta. intros placeholder Neg.
      now destruct (contains placeholder content).
    - intros [NoPlaceholder All].
      assert (K : length kept = length placeholders).
      { apply filter_all. eapply Forall_impl; [| exact NoPlaceholder].
        cbv beta. intros placeholder No. now rewrite No. }
      assert (F : length found = length project_indicators)
        by (apply filter_all; exact All).
      change (length placeholders) with 7%nat in K.
      change (length project_indicators) with 5%nat in F.
      assert (Twelve : k = 12%Z) by lia.
      rewrite Ex, Twelve. reflexivity. }
  split; [exists k; split; [exact Range | rewrite <- Ex; exact Score] |].
  split; [rewrite Twelfths; rewrite <- Ex in RangeQ; lra |].
  split; [exact Full |].
  intros Hundred filename r. apply Full in Hundred.
  destruct Hundred as [NoPlaceholder _].
  unfold _check_file_content.
  assert (None :
    filter (fun placeholder => contains placeholder content) placeholders
    = []).
  { apply length_zero_iff_nil, filter_none. exact NoPlaceholder. }
  rewrite None.
  repeat match goal with
         | |- context [if ?b then _ else _] => destruct b
         | |- context [match ?l with [] => _ | _ :: _ => _ end] => destruct l
         end;
    cbn [add_pass add_warning messages];
    rewrite ?in_app_iff; cbn [In]; tauto.
Qed.

(** The two pieces of arithmetic on doubles, as the script computes them:
    the thirteen possible scores lie between 0 and 100 and only twelve
    checks out of twelve give 100; 70% of three and of four keywords both
    ask for three. *)
Lemma binary64_score_and_threshold :
  forallb
    (fun k =>
       let score :=
         (Binary64.of_int k / Binary64.of_int 12 * 100)%float in
       (0 <=? score)%float && (score <=? 100)%float
       && Bool.eqb (score =? 100)%float (k =? 12)%Z)
    [0; 1; 2; 3; 4; 5; 6; 7; 8; 9; 10; 11; 12]%Z
  = true
  /\ forallb
       (fun n =>
          forallb
            (fun m =>
               Bool.eqb
                 (Binary64.of_int n * 0.7 <=? Binary64.of_int m)%float
                 (3 <=? m)%Z)
            [0; 1; 2; 3; 4]%Z)
       [3; 4]%Z
     = true.
Proof. split; vm_compute; reflexivity. Qed.

(** The threshold of [check_keywords] in whole numbers. *)
Lemma keywords_threshold filename expected content r :
  let found := filter (fun kw => contains kw content) expected in
  check_keywords filename expected content r
  = if (7 * Z.of_nat (length expected) <=? 10 * Z.of_nat (length found))%Z
    then add_pass (filename ++ ": Auto-trigger keywords configured") r
    else add_warning (filename ++ ": Missing some auto-trigger keywords") r.
Proof.
  cbv zeta. unfold check_keywords.
  set (n := Z.of_nat (length expected)).
  set (m := Z.of_nat (length (filter _ expected))).
  destruct (Qleb_spec (inject_Z n * 0.7) (inject_Z m)) as [Le | Gt];
    destruct (Z.leb_spec (7 * n) (10 * m)) as [LeZ | GtZ];
    try reflexivity; exfalso.
  - assert (Q : inject_Z (10 * m) < inject_Z (7 * n))
      by (rewrite <- Zlt_Qlt; exact GtZ).
    rewrite !inject_Z_mult in Q.
    change (inject_Z 10) with 10 in Q. change (inject_Z 7) with 7 in Q. lra.
  - assert (Q : inject_Z (7 * n) <= inject_Z (10 * m))
      by (rewrite <- Zle_Qle; exact LeZ).
    rewrite !inject_Z_mult in Q.
    change (inject_Z 10) with 10 in Q. change (inject_Z 7) with 7 in Q. lra.
Qed.

(** X21: for each of the six files of [keyword_files] the threshold of
    70% asks for three keywords: all of them where the file has three, all
    but one for the four of the RIPER rules.  With fewer the file gets
    the warning. *)
Theorem keyword_threshold_is_three filename expected content r :
  In (filename, expected) keyword_files ->
  let found := filter (fun kw => contains kw content) expected in
  ((3 <= length found)%nat ->
   check_keywords filename expected content r
   = add_pass (filename ++ ": Auto-trigger keywords configured") r)
  /\ ((length found < 3)%nat ->
      check_keywords filename expected content r
      = add_warning (filename ++ ": Missing some auto-trigger keywords") r).
Proof.
  intros Listed. cbv zeta. rewrite keywords_threshold. cbv zeta.
  pose proof (filter_length_le (fun kw => contains kw content) expected)
    as Le.
  set (found := filter (fun kw => contains kw content) expected) in *.
  assert (Size : length expected = 3%nat \/ length expected = 4%nat).
  { cbn [keyword_files In] in Listed.
    repeat (destruct Listed as [Listed | Listed];
            [injection Listed as _ <-; cbn; tauto |]).
    contradiction. }
  split; intros Count.
  - destruct (Z.leb_spec (7 * Z.of_nat (length expected))
                         (10 * Z.of_nat (length found)));
      [reflexivity | lia].
  - destruct (Z.leb_spec (7 * Z.of_nat (length expected))
                         (10 * Z.of_nat (length found)));
      [lia | reflexivity].
Qed.

Lemma keyword_threshold_is_three_witness :
  let found :=
    filter (fun kw => contains kw "a task of quality")
           ["task"; "quality"; "project"] in
  ((3 <= length found)%nat ->
   check_keywords "010-cursor_general_rules.mdc"
     ["task"; "quality"; "project"] "a task of quality" new
   = add_pass
       ("010-cursor_general_rules.mdc" ++ ": Auto-trigger keywords configured")
       new)
  /\ ((length found < 3)%nat ->
      check_keywords "010-cursor_general_rules.mdc"
        ["task"; "quality"; "project"] "a task of quality" new
      = add_warning
          ("010-cursor_general_rules.mdc"
           ++ ": Missing some auto-trigger keywords")
          new).
Proof.
  apply (keyword_threshold_is_three
           "010-cursor_general_rules.mdc" ["task"; "quality"; "project"]
           "a task of quality" new).
  left. reflexivity.
Defined.

End ValidateSetupFacts.
